(** * The dashboard query layer ([app/lib/data.ts])

    A shallow embedding of the eight exported query functions of
    [app/lib/data.ts].  The functions are asynchronous JavaScript: they
    issue requests to two clients (the table-scoped REST client and the
    raw SQL client), write to the console and throw.  They are embedded
    in a small monad [Js] that records, in program order, the requests
    issued and settled and the console lines written, and that ends in
    a normal completion or a thrown value.

    JavaScript numbers are modelled exactly: integer columns as [Z],
    quotients as [Q]. *)

From Stdlib Require Import ZArith QArith Qround List String Ascii Bool Lia.
From Stdlib Require Import DecimalString Sorted Permutation.
Import ListNotations.

Local Open Scope string_scope.
Local Open Scope Z_scope.

(** ** Rows, as the clients deliver them *)

(** [revenue(month, revenue)], selected as ["month, revenue"]. *)
Module Revenue.
Record t := mk { month : string; revenue : Z }.
End Revenue.

(** [invoices(id, customer_id, amount, status, date)]: a row of the table,
    and of [select('*')].  [amount] is in integer cents. *)
Module Invoice.
Record t := mk {
    id : string; customer_id : string; amount : Z; status : string; date : string }.
End Invoice.

(** [customers(id, name, email, image_url)]: a row of the table, of
    [select('*')] and of [select('id, name, email, image_url')]. *)
Module Customer.
Record t := mk { id : string; name : string; email : string; image_url : string }.
End Customer.

(** The projection [amount, id, customer_id, date] of [fetchLatestInvoices]. *)
Module RecentInvoice.
Record t := mk { amount : Z; id : string; customer_id : string; date : string }.
End RecentInvoice.

(** The projection [status, amount] of [fetchCardData]. *)
Module InvoiceStatus.
Record t := mk { status : string; amount : Z }.
End InvoiceStatus.

(** The projection of [fetchFilteredInvoices], with the embedded
    [customers (name, email, image_url)] resource ([null] without one). *)
Module InvoicesTable.
Record customer := mkCustomer { name : string; email : string; image_url : string }.
Record t := mk {
    id : string; amount : Z; date : string; status : string;
    customers : option customer }.
End InvoicesTable.

(** What [fetchLatestInvoices] builds; [customer?.name] is [undefined]
    ([None]) without a customer. *)
Module LatestInvoice.
Record t := mk {
    id : string; amount : string;
    name : option string; email : option string; image_url : option string }.
End LatestInvoice.

(** What [fetchCardData] returns. *)
Module CardData.
Record t := mk {
    numberOfCustomers : Z; numberOfInvoices : Z;
    totalPaidInvoices : string; totalPendingInvoices : string }.
End CardData.

(** The row of the count statement of [fetchInvoicesPages]. *)
Module CountRow.
Record t := mk { count : Z }.
End CountRow.

(** [InvoiceForm]: the row of [fetchInvoiceById] as the SQL client
    delivers it ([row], amount in cents) and as the function returns it
    ([t], amount divided by 100). *)
Module InvoiceForm.
Record row := mkRow {
    row_id : string; row_customer_id : string; row_amount : Z; row_status : string }.
Record t := mk { id : string; customer_id : string; amount : Q; status : string }.
End InvoiceForm.

(** [CustomerField]: the row of [fetchCustomers]. *)
Module CustomerField.
Record t := mk { id : string; name : string }.
End CustomerField.

(** [CustomersTableType]: the aggregate row of [fetchFilteredCustomers] as
    delivered ([row]) and as returned ([t], both sums formatted).  The
    three aggregates are the integers that [COUNT] and [SUM] give; the
    form in which the driver hands over such an integer (decimal text
    for an [int8]) is not modelled.  [total_invoices] is passed through
    as it was delivered. *)
Module CustomersTable.
Record row := mkRow {
    row_id : string; row_name : string; row_email : string; row_image_url : string;
    row_total_invoices : Z; row_total_pending : Z; row_total_paid : Z }.
Record t := mk {
    id : string; name : string; email : string; image_url : string;
    total_invoices : Z; total_pending : string; total_paid : string }.
End CustomersTable.

(** ** The two clients *)

Module Supabase.
  (** The structured error of the REST client. *)
Record PostgrestError := { message : string }.

  (** The [{data, error}] pair the REST client resolves to. *)
Record PostgrestResponse (T : Type) := {
    data : option T; error : option PostgrestError }.
Arguments data {T} _.
Arguments error {T} _.
End Supabase.

(** The row set the SQL client resolves to. *)
Record QueryResult (T : Type) := { rows : list T }.
Arguments rows {T} _.

(** The request a REST query builder has accumulated. *)
Record PostgrestQuery := {
  q_from : string;
  q_select : string;
  q_order : option (string * bool);
  q_limit : option Z;
  q_range : option (Z * Z);
  q_in : option (string * list string);
  q_or : option string }.

Definition from (table : string) : PostgrestQuery :=
  {| q_from := table; q_select := ""; q_order := None; q_limit := None;
     q_range := None; q_in := None; q_or := None |}.

Definition select (columns : string) (q : PostgrestQuery) : PostgrestQuery :=
  {| q_from := q_from q; q_select := columns; q_order := q_order q; q_limit := q_limit q;
     q_range := q_range q; q_in := q_in q; q_or := q_or q |}.

Definition order (column : string) (ascending : bool) (q : PostgrestQuery) : PostgrestQuery :=
  {| q_from := q_from q; q_select := q_select q; q_order := Some (column, ascending);
     q_limit := q_limit q; q_range := q_range q; q_in := q_in q; q_or := q_or q |}.

Definition limit (count : Z) (q : PostgrestQuery) : PostgrestQuery :=
  {| q_from := q_from q; q_select := q_select q; q_order := q_order q;
     q_limit := Some count; q_range := q_range q; q_in := q_in q; q_or := q_or q |}.

Definition range (first last : Z) (q : PostgrestQuery) : PostgrestQuery :=
  {| q_from := q_from q; q_select := q_select q; q_order := q_order q;
     q_limit := q_limit q; q_range := Some (first, last); q_in := q_in q; q_or := q_or q |}.

Definition in_ (column : string) (values : list string) (q : PostgrestQuery) : PostgrestQuery :=
  {| q_from := q_from q; q_select := q_select q; q_order := q_order q;
     q_limit := q_limit q; q_range := q_range q; q_in := Some (column, values);
     q_or := q_or q |}.

Definition or_ (filters : string) (q : PostgrestQuery) : PostgrestQuery :=
  {| q_from := q_from q; q_select := q_select q; q_order := q_order q;
     q_limit := q_limit q; q_range := q_range q; q_in := q_in q; q_or := Some filters |}.

Notation "q |> f" := (f q) (at level 45, left associativity, only parsing).

(** The four SQL templates of the file, and a statement with its
    interpolated parameters. *)
Inductive Statement :=
| CountInvoices
| InvoiceById
| AllCustomers
| FilteredCustomers.

Record SqlQuery := { statement : Statement; params : list string }.

Inductive Request :=
| Rest (q : PostgrestQuery)
| Sql (q : SqlQuery).

(** ** Thrown values, console lines, events *)

Inductive Thrown :=
| JsError (msg : string)        (* new Error(msg) *)
| JsTypeError (msg : string)    (* a property read on null or undefined *)
| Rejection (reason : string).  (* whatever a client rejects with *)

(** What an awaited client call does: it resolves or it rejects. *)
Inductive Reply (T : Type) :=
| Fulfilled (v : T)
| Rejected (e : Thrown).
Arguments Fulfilled {T} _.
Arguments Rejected {T} _.

(** The second argument of a console line. *)
Inductive Payload :=
| PThrown (e : Thrown)
| PError (e : Supabase.PostgrestError)
| PInvoices (d : option (list InvoicesTable.t)).

Inductive Event :=
| Issued (r : Request)
| Settled (r : Request)
| ConsoleError (label : string) (p : Payload)
| ConsoleLog (label : string) (p : Payload).

(** ** The monad of the embedding *)

Inductive Completion (A : Type) :=
| Normal (a : A)
| Throw (e : Thrown).
Arguments Normal {A} _.
Arguments Throw {A} _.

Definition Js (A : Type) : Type := (list Event * Completion A)%type.

Definition events {A} (m : Js A) : list Event := fst m.
Definition outcome {A} (m : Js A) : Completion A := snd m.

Definition ret {A} (a : A) : Js A := ([], Normal a).

Definition throw {A} (e : Thrown) : Js A := ([], Throw e).

Definition bind {A B} (m : Js A) (k : A -> Js B) : Js B :=
  match m with
  | (tr, Normal a) => ((tr ++ events (k a))%list, outcome (k a))
  | (tr, Throw e) => (tr, Throw e)
  end.

Notation "x <- m ;; k" := (bind m (fun x => k))
  (at level 61, m at next level, right associativity).
Notation "m ;; k" := (bind m (fun _ => k))
  (at level 61, right associativity).

(** [try { body } catch (e) { handler e }]. *)
Definition try_catch {A} (body : Js A) (handler : Thrown -> Js A) : Js A :=
  match body with
  | (tr, Normal a) => (tr, Normal a)
  | (tr, Throw e) => ((tr ++ events (handler e))%list, outcome (handler e))
  end.

Definition console_error (label : string) (p : Payload) : Js unit :=
  ([ConsoleError label p], Normal tt).

Definition console_log (label : string) (p : Payload) : Js unit :=
  ([ConsoleLog label p], Normal tt).

(** [if (e) throw mk(e)]. *)
Definition throw_if {E} (e : option E) (mk : E -> Thrown) : Js unit :=
  match e with
  | Some e => throw (mk e)
  | None => ret tt
  end.

(** [await] of a client call: the request goes out, the function is
    suspended until the request settles, and resumes with the value or
    with the rejection thrown. *)
Definition await {T} (r : Request) (reply : Reply T) : Js T :=
  match reply with
  | Fulfilled v => ([Issued r; Settled r], Normal v)
  | Rejected e => ([Issued r; Settled r], Throw e)
  end.

(** The backing store as the layer sees it: what each query of the file
    resolves to.  One endpoint per table and projection; the REST
    endpoints receive the builder's request, the SQL ones the
    interpolated parameters. *)
Record Backend := {
  rest_revenue : PostgrestQuery -> Reply (Supabase.PostgrestResponse (list Revenue.t));
  rest_invoices_recent : PostgrestQuery -> Reply (Supabase.PostgrestResponse (list RecentInvoice.t));
  rest_customers : PostgrestQuery -> Reply (Supabase.PostgrestResponse (list Customer.t));
  rest_invoices_all : PostgrestQuery -> Reply (Supabase.PostgrestResponse (list Invoice.t));
  rest_invoices_status : PostgrestQuery -> Reply (Supabase.PostgrestResponse (list InvoiceStatus.t));
  rest_invoices_table : PostgrestQuery -> Reply (Supabase.PostgrestResponse (list InvoicesTable.t));
  sql_count : list string -> Reply (QueryResult CountRow.t);
  sql_invoice_by_id : list string -> Reply (QueryResult InvoiceForm.row);
  sql_customers : list string -> Reply (QueryResult CustomerField.t);
  sql_customers_table : list string -> Reply (QueryResult CustomersTable.row) }.

Definition await_rest {T} (endpoint : PostgrestQuery -> Reply (Supabase.PostgrestResponse T))
    (q : PostgrestQuery) : Js (Supabase.PostgrestResponse T) :=
  await (Rest q) (endpoint q).

Definition await_sql {T} (endpoint : list string -> Reply (QueryResult T))
    (s : Statement) (ps : list string) : Js (QueryResult T) :=
  await (Sql {| statement := s; params := ps |}) (endpoint ps).

(** ** The formatting collaborator *)

Definition decimal (n : Z) : string :=
  NilZero.string_of_uint (N.to_uint (Z.to_N n)).

(** Digits, least significant first, with a comma after every third
    digit that has a digit after it. *)
Fixpoint group_thousands (ds : list ascii) : list ascii :=
  match ds with
  | a :: b :: c :: ((_ :: _) as more) => a :: b :: c :: ","%char :: group_thousands more
  | _ => ds
  end.

Definition with_separators (n : Z) : string :=
  string_of_list_ascii (rev (group_thousands (rev (list_ascii_of_string (decimal n))))).

Definition two_digits (n : Z) : string :=
  if n <? 10 then "0" ++ decimal n else decimal n.

(** Modelled from the spec: [formatCurrency] of [./utils], which is not
    part of the sources at hand.  The spec describes it as a pure
    function from an integer-cents amount to a localized currency
    display string and shows ["$1,000.00"] for 100000 cents, ["$500.00"]
    for 50000 and ["$0.00"] for 0: dollar sign, dollars in groups of
    three, a point and two digits of cents. *)
Definition formatCurrency (amount : Z) : string :=
  (if amount <? 0 then "-" else "") ++
  "$" ++ with_separators (Z.abs amount / 100) ++ "." ++ two_digits (Z.abs amount mod 100).

(** ** The query functions *)

Definition Math_ceil (x : Q) : Z := Qceiling x.

Definition Number (n : Z) : Q := inject_Z n.

(** [xs.length]. *)
Definition length_ {A} (xs : list A) : Z := Z.of_nat (List.length xs).

(** [xs.reduce((sum, curr) => sum + amount(curr), 0)]. *)
Definition reduce_sum {A} (amount : A -> Z) (xs : list A) : Z :=
  fold_left (fun sum curr => sum + amount curr) xs 0.

Section QueryLayer.

Variable B : Backend.

(** Each function is one [try] block and one [catch] clause; the block
    is named apart ([..._try]) so that what it throws can be told from
    what the function throws. *)

Definition revenueQuery : PostgrestQuery := from "revenue" |> select "month, revenue".

Definition fetchRevenue_try : Js (list Revenue.t) :=
  r <- await_rest (rest_revenue B) revenueQuery ;;
  throw_if (Supabase.error r) (fun error => JsError (Supabase.message error)) ;;
  match Supabase.data r with
  | None => throw (JsError "No se encontraron datos en la tabla 'revenue'.")
  | Some data => ret data
  end.

Definition fetchRevenue : Js (list Revenue.t) :=
  try_catch fetchRevenue_try
    (fun error =>
       console_error "Database Error:" (PThrown error) ;;
       throw (JsError "Failed to fetch revenue data.")).

(** The object [fetchLatestInvoices] builds for one invoice. *)
Definition latestInvoice (customers : list Customer.t) (invoice : RecentInvoice.t)
    : LatestInvoice.t :=
  let customer :=
    find (fun c => (Customer.id c =? RecentInvoice.customer_id invoice)%string) customers in
  {| LatestInvoice.id := RecentInvoice.id invoice;
     LatestInvoice.amount := formatCurrency (RecentInvoice.amount invoice);
     LatestInvoice.name := option_map Customer.name customer;
     LatestInvoice.email := option_map Customer.email customer;
     LatestInvoice.image_url := option_map Customer.image_url customer |}.

Definition latestInvoicesQuery : PostgrestQuery :=
  from "invoices"
  |> select "
        amount, 
        id,
        customer_id, 
        date
      "
  |> order "date" false
  |> limit 5.

Definition customersQuery (customerIds : list string) : PostgrestQuery :=
  from "customers" |> select "id, name, email, image_url" |> in_ "id" customerIds.

Definition fetchLatestInvoices_try : Js (list LatestInvoice.t) :=
  r <- await_rest (rest_invoices_recent B) latestInvoicesQuery ;;
  throw_if (Supabase.error r)
    (fun error => JsError ("Supabase query failed: " ++ Supabase.message error)) ;;
  match Supabase.data r with
  | None | Some [] => ret []
  | Some data =>
    let customerIds := map RecentInvoice.customer_id data in
    c <- await_rest (rest_customers B) (customersQuery customerIds) ;;
    throw_if (Supabase.error c)
      (fun customerError =>
         JsError ("Failed to fetch customers: " ++ Supabase.message customerError)) ;;
    match Supabase.data c with
    | None => throw (JsTypeError "Cannot read properties of null (reading 'find')")
    | Some customers => ret (map (latestInvoice customers) data)
    end
  end.

Definition fetchLatestInvoices : Js (list LatestInvoice.t) :=
  try_catch fetchLatestInvoices_try
    (fun error =>
       console_error "Database Error:" (PThrown error) ;;
       throw (JsError "Failed to fetch the latest invoices.")).

(** The three requests of [fetchCardData]. *)
Definition allInvoicesQuery : PostgrestQuery := from "invoices" |> select "*".
Definition allCustomersQuery : PostgrestQuery := from "customers" |> select "*".
Definition invoiceStatusQuery : PostgrestQuery := from "invoices" |> select "status, amount".

(** [invoiceData?.filter(invoice => invoice.status === s)
       .reduce((sum, curr) => sum + curr.amount, 0) ?? 0]. *)
Definition totalWithStatus (s : string) (invoiceData : option (list Invoice.t)) : Z :=
  match invoiceData with
  | Some invoiceData =>
    reduce_sum Invoice.amount
      (filter (fun invoice => (Invoice.status invoice =? s)%string) invoiceData)
  | None => 0
  end.

Definition fetchCardData_try : Js CardData.t :=
  r1 <- await_rest (rest_invoices_all B) allInvoicesQuery ;;
  r2 <- await_rest (rest_customers B) allCustomersQuery ;;
  r3 <- await_rest (rest_invoices_status B) invoiceStatusQuery ;;
  let invoiceData := Supabase.data r1 in
  let customerCountData := Supabase.data r2 in
  throw_if (Supabase.error r1)
    (fun invoiceError =>
       JsError ("Error fetching invoices: " ++ Supabase.message invoiceError)) ;;
  throw_if (Supabase.error r2)
    (fun customerError =>
       JsError ("Error fetching customers: " ++ Supabase.message customerError)) ;;
  throw_if (Supabase.error r3)
    (fun invoiceStatusError =>
       JsError ("Error fetching invoice statuses: " ++ Supabase.message invoiceStatusError)) ;;
  let numberOfInvoices :=
    match invoiceData with Some invoiceData => length_ invoiceData | None => 0 end in
  let numberOfCustomers :=
    match customerCountData with
    | Some customerCountData => length_ customerCountData
    | None => 0
    end in
  let totalPaidInvoices := formatCurrency (totalWithStatus "paid" invoiceData) in
  let totalPendingInvoices := formatCurrency (totalWithStatus "pending" invoiceData) in
  ret {| CardData.numberOfCustomers := numberOfCustomers;
         CardData.numberOfInvoices := numberOfInvoices;
         CardData.totalPaidInvoices := totalPaidInvoices;
         CardData.totalPendingInvoices := totalPendingInvoices |}.

Definition fetchCardData : Js CardData.t :=
  try_catch fetchCardData_try
    (fun error =>
       console_error "Database Error:" (PThrown error) ;;
       throw (JsError "Failed to fetch card data.")).

Definition ITEMS_PER_PAGE : Z := 6.

(** The [or] filter of [fetchFilteredInvoices]; the empty string is
    falsy, so an empty query gives [null]. *)
Definition filterCondition (query : string) : option string :=
  if (query =? "")%string then None
  else Some ("(
      customers.name.ilike.%" ++ query ++ "%,
      customers.email.ilike.%" ++ query ++ "%,
      amount::text.ilike.%" ++ query ++ "%,
      date::text.ilike.%" ++ query ++ "%,
      status.ilike.%" ++ query ++ "%
    )").

(** The request [fetchFilteredInvoices] awaits.  The builder is one
    object that each call updates in place, so the [or] filter added
    after [range] is part of the request that goes out. *)
Definition invoicesQuery (query : string) (currentPage : Z) : PostgrestQuery :=
  let offset := (currentPage - 1) * ITEMS_PER_PAGE in
  let baseQuery :=
    from "invoices"
    |> select "
        id,
        amount,
        date,
        status,
        customers (
          name,
          email,
          image_url
        )
      "
    |> order "date" false
    |> range offset (offset + ITEMS_PER_PAGE - 1) in
  match filterCondition query with
  | Some filterCondition => baseQuery |> or_ filterCondition
  | None => baseQuery
  end.

Definition fetchFilteredInvoices_try (query : string) (currentPage : Z)
    : Js (option (list InvoicesTable.t)) :=
  r <- await_rest (rest_invoices_table B) (invoicesQuery query currentPage) ;;
  let data := Supabase.data r in
  match Supabase.error r with
  | Some error =>
    console_error "Supabase Error:" (PError error) ;;
    throw (JsError "Failed to fetch invoices.")
  | None =>
    console_log "Fetched Invoices:" (PInvoices data) ;;
    ret data
  end.

Definition fetchFilteredInvoices (query : string) (currentPage : Z)
    : Js (option (list InvoicesTable.t)) :=
  try_catch (fetchFilteredInvoices_try query currentPage)
    (fun error =>
       console_error "Database Error:" (PThrown error) ;;
       throw (JsError "Failed to fetch invoices.")).

(** The five parameters of the count statement, each [%query%]. *)
Definition countParams (query : string) : list string :=
  let pattern := "%" ++ query ++ "%" in
  [pattern; pattern; pattern; pattern; pattern].

Definition fetchInvoicesPages_try (query : string) : Js Z :=
  count <- await_sql (sql_count B) CountInvoices (countParams query) ;;
  match rows count with
  | [] => throw (JsTypeError "Cannot read properties of undefined (reading 'count')")
  | row0 :: _ =>
    let totalPages := Math_ceil (Number (CountRow.count row0) / Number ITEMS_PER_PAGE) in
    ret totalPages
  end.

Definition fetchInvoicesPages (query : string) : Js Z :=
  try_catch (fetchInvoicesPages_try query)
    (fun error =>
       console_error "Database Error:" (PThrown error) ;;
       throw (JsError "Failed to fetch total number of invoices.")).

(** [{...invoice, amount: invoice.amount / 100}]. *)
Definition toDollars (invoice : InvoiceForm.row) : InvoiceForm.t :=
  {| InvoiceForm.id := InvoiceForm.row_id invoice;
     InvoiceForm.customer_id := InvoiceForm.row_customer_id invoice;
     InvoiceForm.status := InvoiceForm.row_status invoice;
     (* Convert amount from cents to dollars *)
     InvoiceForm.amount := (Number (InvoiceForm.row_amount invoice) / Number 100)%Q |}.

Definition fetchInvoiceById_try (id : string) : Js (option InvoiceForm.t) :=
  data <- await_sql (sql_invoice_by_id B) InvoiceById [id] ;;
  let invoice := map toDollars (rows data) in
  ret (hd_error invoice).

Definition fetchInvoiceById (id : string) : Js (option InvoiceForm.t) :=
  try_catch (fetchInvoiceById_try id)
    (fun error =>
       console_error "Database Error:" (PThrown error) ;;
       throw (JsError "Failed to fetch invoice.")).

Definition fetchCustomers_try : Js (list CustomerField.t) :=
  data <- await_sql (sql_customers B) AllCustomers [] ;;
  let customers := rows data in
  ret customers.

Definition fetchCustomers : Js (list CustomerField.t) :=
  try_catch fetchCustomers_try
    (fun err =>
       console_error "Database Error:" (PThrown err) ;;
       throw (JsError "Failed to fetch all customers.")).

(** [{...customer, total_pending: formatCurrency(customer.total_pending),
      total_paid: formatCurrency(customer.total_paid)}]. *)
Definition formatTotals (customer : CustomersTable.row) : CustomersTable.t :=
  {| CustomersTable.id := CustomersTable.row_id customer;
     CustomersTable.name := CustomersTable.row_name customer;
     CustomersTable.email := CustomersTable.row_email customer;
     CustomersTable.image_url := CustomersTable.row_image_url customer;
     CustomersTable.total_invoices := CustomersTable.row_total_invoices customer;
     CustomersTable.total_pending := formatCurrency (CustomersTable.row_total_pending customer);
     CustomersTable.total_paid := formatCurrency (CustomersTable.row_total_paid customer) |}.

Definition customersParams (query : string) : list string :=
  let pattern := "%" ++ query ++ "%" in
  [pattern; pattern].

Definition fetchFilteredCustomers_try (query : string) : Js (list CustomersTable.t) :=
  data <- await_sql (sql_customers_table B) FilteredCustomers (customersParams query) ;;
  let customers := map formatTotals (rows data) in
  ret customers.

Definition fetchFilteredCustomers (query : string) : Js (list CustomersTable.t) :=
  try_catch (fetchFilteredCustomers_try query)
    (fun err =>
       console_error "Database Error:" (PThrown err) ;;
       throw (JsError "Failed to fetch customer table.")).

End QueryLayer.

(** ** The backing store

    The relations of the store, and the rows the clients deliver for
    the requests of this file when every request succeeds: the reading
    of the REST requests (filter, then order, then offset and limit,
    whatever the order of the builder calls) and of the four SQL
    statements. *)

Record Database := {
  db_invoices : list Invoice.t;
  db_customers : list Customer.t;
  db_revenue : list Revenue.t }.

(** Stable insertion sort; [before a b] says that [a] may stand in front
    of [b]. *)
Fixpoint insert_by {A} (before : A -> A -> bool) (x : A) (l : list A) : list A :=
  match l with
  | [] => [x]
  | y :: l' => if before x y then x :: y :: l' else y :: insert_by before x l'
  end.

Definition sort_by {A} (before : A -> A -> bool) (l : list A) : list A :=
  fold_right (insert_by before) [] l.

(** [ORDER BY date], on dates in their text form (year, month, day). *)
Definition date_before (ascending : bool) (d1 d2 : string) : bool :=
  if ascending then (d1 <=? d2)%string else (d2 <=? d1)%string.

(** Offset and limit of a REST request: [range(first, last)] asks for
    [last - first + 1] rows from offset [first], [limit(n)] for [n]. *)
Definition window {A} (q : PostgrestQuery) (l : list A) : list A :=
  let l :=
    match q_range q with
    | Some (first, last) => firstn (Z.to_nat (last - first + 1)) (skipn (Z.to_nat first) l)
    | None => l
    end in
  match q_limit q with
  | Some n => firstn (Z.to_nat n) l
  | None => l
  end.

(** [order('date', {ascending})], the one ordering the file asks for. *)
Definition ordered (q : PostgrestQuery) (l : list Invoice.t) : list Invoice.t :=
  match q_order q with
  | Some (column, ascending) =>
    if (column =? "date")%string
    then sort_by (fun a b => date_before ascending (Invoice.date a) (Invoice.date b)) l
    else l
  | None => l
  end.

Definition success {T} (rows : T) : Reply (Supabase.PostgrestResponse T) :=
  Fulfilled {| Supabase.data := Some rows; Supabase.error := None |}.

Definition failure {T} (msg : string) : Reply (Supabase.PostgrestResponse T) :=
  Fulfilled {| Supabase.data := None; Supabase.error := Some {| Supabase.message := msg |} |}.

(** A negative offset is refused by the store. *)
Definition offset_ok (q : PostgrestQuery) : bool :=
  match q_range q with
  | Some (first, _) => 0 <=? first
  | None => true
  end.

Definition customer_of (db : Database) (customer_id : string) : option Customer.t :=
  find (fun c => (Customer.id c =? customer_id)%string) (db_customers db).

(** An invoice with its embedded [customers] resource. *)
Definition with_customer (db : Database) (i : Invoice.t) : InvoicesTable.t :=
  {| InvoicesTable.id := Invoice.id i;
     InvoicesTable.amount := Invoice.amount i;
     InvoicesTable.date := Invoice.date i;
     InvoicesTable.status := Invoice.status i;
     InvoicesTable.customers :=
       option_map
         (fun c => {| InvoicesTable.name := Customer.name c;
                      InvoicesTable.email := Customer.email c;
                      InvoicesTable.image_url := Customer.image_url c |})
         (customer_of db (Invoice.customer_id i)) |}.

(** Case folding of the letters [A] to [Z]; how the server folds other
    letters depends on its locale and is not modelled. *)
Definition lower (c : ascii) : ascii :=
  let n := N_of_ascii c in
  if ((65 <=? n) && (n <=? 90))%N then ascii_of_N (n + 32) else c.

(** [text LIKE pattern] without regard to case: [%] stands for any run
    of characters, [_] for any one character, and a backslash makes the
    character after it stand for itself.  (The server raises an error
    on a pattern that ends in a lone backslash; the patterns of this
    file end in [%], so that none does.) *)
Fixpoint like (pattern text : list ascii) {struct pattern} : bool :=
  match pattern with
  | [] => match text with [] => true | _ => false end
  | p :: pattern' =>
    if (p =? "\")%char then
      match pattern' with
      | [] => false
      | q :: pattern'' =>
        match text with
        | [] => false
        | c :: text' => (lower q =? lower c)%char && like pattern'' text'
        end
      end
    else if (p =? "%")%char then
      (fix any (text : list ascii) : bool :=
         like pattern' text ||
         match text with [] => false | _ :: text' => any text' end) text
    else
      match text with
      | [] => false
      | c :: text' =>
        ((p =? "_")%char || (lower p =? lower c)%char) && like pattern' text'
      end
  end.

Definition ilike (text pattern : string) : bool :=
  like (list_ascii_of_string pattern) (list_ascii_of_string text).

(** [amount::text]. *)
Definition text_of_int (n : Z) : string := NilZero.string_of_int (Z.to_int n).

Section Store.

(** The reading of an [or] filter is the server's and is not fixed
    here: it refuses the filter, or keeps the rows of a predicate. *)
Variable or_filter : string -> Supabase.PostgrestError + (Invoice.t -> bool).

Variable db : Database.

Definition store_revenue (q : PostgrestQuery) := success (db_revenue db).

Definition store_invoices_recent (q : PostgrestQuery) :=
  success
    (map (fun i => {| RecentInvoice.amount := Invoice.amount i;
                      RecentInvoice.id := Invoice.id i;
                      RecentInvoice.customer_id := Invoice.customer_id i;
                      RecentInvoice.date := Invoice.date i |})
         (window q (ordered q (db_invoices db)))).

Definition store_customers (q : PostgrestQuery) :=
  success
    match q_in q with
    | Some (_, values) =>
      filter (fun c => existsb (String.eqb (Customer.id c)) values) (db_customers db)
    | None => db_customers db
    end.

Definition store_invoices_all (q : PostgrestQuery) := success (db_invoices db).

Definition store_invoices_status (q : PostgrestQuery) :=
  success
    (map (fun i => {| InvoiceStatus.status := Invoice.status i;
                      InvoiceStatus.amount := Invoice.amount i |})
         (db_invoices db)).

Definition store_invoices_table (q : PostgrestQuery)
    : Reply (Supabase.PostgrestResponse (list InvoicesTable.t)) :=
  if negb (offset_ok q) then failure "OFFSET must not be negative"
  else
    match q_or q with
    | None =>
      success (map (with_customer db) (window q (ordered q (db_invoices db))))
    | Some filters =>
      match or_filter filters with
      | inl e => Fulfilled {| Supabase.data := None; Supabase.error := Some e |}
      | inr keep =>
        success (map (with_customer db) (window q (ordered q (filter keep (db_invoices db)))))
      end
    end.

(** [invoices JOIN customers ON invoices.customer_id = customers.id]. *)
Definition joined : list (Invoice.t * Customer.t) :=
  flat_map
    (fun i =>
       map (pair i)
         (filter (fun c => (Invoice.customer_id i =? Customer.id c)%string) (db_customers db)))
    (db_invoices db).

Definition store_count (ps : list string) : Reply (QueryResult CountRow.t) :=
  match ps with
  | [p1; p2; p3; p4; p5] =>
    let matching :=
      filter
        (fun ic : Invoice.t * Customer.t =>
           let (i, c) := ic in
           ilike (Customer.name c) p1 ||
           ilike (Customer.email c) p2 ||
           ilike (text_of_int (Invoice.amount i)) p3 ||
           ilike (Invoice.date i) p4 ||
           ilike (Invoice.status i) p5)
        joined in
    Fulfilled {| rows := [ {| CountRow.count := length_ matching |} ] |}
  | _ => Rejected (Rejection "bind message supplies the wrong number of parameters")
  end.

Definition store_invoice_by_id (ps : list string) : Reply (QueryResult InvoiceForm.row) :=
  match ps with
  | [id] =>
    Fulfilled
      {| rows :=
           map (fun i => {| InvoiceForm.row_id := Invoice.id i;
                            InvoiceForm.row_customer_id := Invoice.customer_id i;
                            InvoiceForm.row_amount := Invoice.amount i;
                            InvoiceForm.row_status := Invoice.status i |})
               (filter (fun i => (Invoice.id i =? id)%string) (db_invoices db)) |}
  | _ => Rejected (Rejection "bind message supplies the wrong number of parameters")
  end.

Definition by_name (a b : Customer.t) : bool := (Customer.name a <=? Customer.name b)%string.

Definition store_all_customers (ps : list string) : Reply (QueryResult CustomerField.t) :=
  Fulfilled
    {| rows :=
         map (fun c => {| CustomerField.id := Customer.id c;
                          CustomerField.name := Customer.name c |})
             (sort_by by_name (db_customers db)) |}.

(** One group of the aggregate statement; [customers.id] is the key of
    the relation, so a customer is a group. *)
Definition customer_totals (c : Customer.t) : CustomersTable.row :=
  let theirs :=
    filter (fun i => (Customer.id c =? Invoice.customer_id i)%string) (db_invoices db) in
  let sum_where (s : string) :=
    reduce_sum (fun i => if (Invoice.status i =? s)%string then Invoice.amount i else 0) theirs in
  {| CustomersTable.row_id := Customer.id c;
     CustomersTable.row_name := Customer.name c;
     CustomersTable.row_email := Customer.email c;
     CustomersTable.row_image_url := Customer.image_url c;
     CustomersTable.row_total_invoices := length_ theirs;
     CustomersTable.row_total_pending := sum_where "pending";
     CustomersTable.row_total_paid := sum_where "paid" |}.

Definition store_customers_table (ps : list string) : Reply (QueryResult CustomersTable.row) :=
  match ps with
  | [p1; p2] =>
    Fulfilled
      {| rows :=
           map customer_totals
             (sort_by by_name
                (filter (fun c => ilike (Customer.name c) p1 || ilike (Customer.email c) p2)
                        (db_customers db))) |}
  | _ => Rejected (Rejection "bind message supplies the wrong number of parameters")
  end.

Definition store : Backend :=
  {| rest_revenue := store_revenue;
     rest_invoices_recent := store_invoices_recent;
     rest_customers := store_customers;
     rest_invoices_all := store_invoices_all;
     rest_invoices_status := store_invoices_status;
     rest_invoices_table := store_invoices_table;
     sql_count := store_count;
     sql_invoice_by_id := store_invoice_by_id;
     sql_customers := store_all_customers;
     sql_customers_table := store_customers_table |}.

End Store.

(** ** The calls of the layer as one family *)

Inductive Call :=
| FetchRevenue
| FetchLatestInvoices
| FetchCardData
| FetchFilteredInvoices (query : string) (currentPage : Z)
| FetchInvoicesPages (query : string)
| FetchInvoiceById (id : string)
| FetchCustomers
| FetchFilteredCustomers (query : string).

Definition Returned (c : Call) : Type :=
  match c with
  | FetchRevenue => list Revenue.t
  | FetchLatestInvoices => list LatestInvoice.t
  | FetchCardData => CardData.t
  | FetchFilteredInvoices _ _ => option (list InvoicesTable.t)
  | FetchInvoicesPages _ => Z
  | FetchInvoiceById _ => option InvoiceForm.t
  | FetchCustomers => list CustomerField.t
  | FetchFilteredCustomers _ => list CustomersTable.t
  end.

Definition call (B : Backend) (c : Call) : Js (Returned c) :=
  match c with
  | FetchRevenue => fetchRevenue B
  | FetchLatestInvoices => fetchLatestInvoices B
  | FetchCardData => fetchCardData B
  | FetchFilteredInvoices query currentPage => fetchFilteredInvoices B query currentPage
  | FetchInvoicesPages query => fetchInvoicesPages B query
  | FetchInvoiceById id => fetchInvoiceById B id
  | FetchCustomers => fetchCustomers B
  | FetchFilteredCustomers query => fetchFilteredCustomers B query
  end.

Definition try_block (B : Backend) (c : Call) : Js (Returned c) :=
  match c with
  | FetchRevenue => fetchRevenue_try B
  | FetchLatestInvoices => fetchLatestInvoices_try B
  | FetchCardData => fetchCardData_try B
  | FetchFilteredInvoices query currentPage => fetchFilteredInvoices_try B query currentPage
  | FetchInvoicesPages query => fetchInvoicesPages_try B query
  | FetchInvoiceById id => fetchInvoiceById_try B id
  | FetchCustomers => fetchCustomers_try B
  | FetchFilteredCustomers query => fetchFilteredCustomers_try B query
  end.

Definition function_name (c : Call) : string :=
  match c with
  | FetchRevenue => "fetchRevenue"
  | FetchLatestInvoices => "fetchLatestInvoices"
  | FetchCardData => "fetchCardData"
  | FetchFilteredInvoices _ _ => "fetchFilteredInvoices"
  | FetchInvoicesPages _ => "fetchInvoicesPages"
  | FetchInvoiceById _ => "fetchInvoiceById"
  | FetchCustomers => "fetchCustomers"
  | FetchFilteredCustomers _ => "fetchFilteredCustomers"
  end.

(** The [X] of each function's "Failed to fetch X." *)
Definition failure_subject (c : Call) : string :=
  match c with
  | FetchRevenue => "revenue data"
  | FetchLatestInvoices => "the latest invoices"
  | FetchCardData => "card data"
  | FetchFilteredInvoices _ _ => "invoices"
  | FetchInvoicesPages _ => "total number of invoices"
  | FetchInvoiceById _ => "invoice"
  | FetchCustomers => "all customers"
  | FetchFilteredCustomers _ => "customer table"
  end.

Definition failure_message (c : Call) : string :=
  "Failed to fetch " ++ failure_subject c ++ ".".

(** The first request of a call. *)
Definition first_request (c : Call) : Request :=
  match c with
  | FetchRevenue => Rest revenueQuery
  | FetchLatestInvoices => Rest latestInvoicesQuery
  | FetchCardData => Rest allInvoicesQuery
  | FetchFilteredInvoices query currentPage => Rest (invoicesQuery query currentPage)
  | FetchInvoicesPages query =>
    Sql {| statement := CountInvoices; params := countParams query |}
  | FetchInvoiceById id => Sql {| statement := InvoiceById; params := [id] |}
  | FetchCustomers => Sql {| statement := AllCustomers; params := [] |}
  | FetchFilteredCustomers query =>
    Sql {| statement := FilteredCustomers; params := customersParams query |}
  end.

(** How a reply settles, without its rows: rejected, or resolved with
    or without a structured error. *)
Definition rest_settlement {T} (r : Reply (Supabase.PostgrestResponse T))
    : Reply (option Supabase.PostgrestError) :=
  match r with
  | Fulfilled r => Fulfilled (Supabase.error r)
  | Rejected x => Rejected x
  end.

Definition sql_settlement {T} (r : Reply (QueryResult T))
    : Reply (option Supabase.PostgrestError) :=
  match r with
  | Fulfilled _ => Fulfilled None
  | Rejected x => Rejected x
  end.

(** The requests a call makes, in order, each with how it settled.
    [fetchLatestInvoices] asks for the customers once the invoices have
    come without error and not empty; [fetchCardData] makes its next
    request once the one before has resolved, with an error or without;
    the other functions make one request. *)
Definition settlements (B : Backend) (c : Call)
    : list (Request * Reply (option Supabase.PostgrestError)) :=
  match c with
  | FetchRevenue => [(Rest revenueQuery, rest_settlement (rest_revenue B revenueQuery))]
  | FetchLatestInvoices =>
    (Rest latestInvoicesQuery, rest_settlement (rest_invoices_recent B latestInvoicesQuery)) ::
    match rest_invoices_recent B latestInvoicesQuery with
    | Fulfilled {| Supabase.data := Some (i :: data); Supabase.error := None |} =>
      let q := customersQuery (map RecentInvoice.customer_id (i :: data)) in
      [(Rest q, rest_settlement (rest_customers B q))]
    | _ => []
    end
  | FetchCardData =>
    (Rest allInvoicesQuery, rest_settlement (rest_invoices_all B allInvoicesQuery)) ::
    match rest_invoices_all B allInvoicesQuery with
    | Rejected _ => []
    | Fulfilled _ =>
      (Rest allCustomersQuery, rest_settlement (rest_customers B allCustomersQuery)) ::
      match rest_customers B allCustomersQuery with
      | Rejected _ => []
      | Fulfilled _ =>
        [(Rest invoiceStatusQuery,
          rest_settlement (rest_invoices_status B invoiceStatusQuery))]
      end
    end
  | FetchFilteredInvoices query currentPage =>
    [(Rest (invoicesQuery query currentPage),
      rest_settlement (rest_invoices_table B (invoicesQuery query currentPage)))]
  | FetchInvoicesPages query =>
    [(Sql {| statement := CountInvoices; params := countParams query |},
      sql_settlement (sql_count B (countParams query)))]
  | FetchInvoiceById id =>
    [(Sql {| statement := InvoiceById; params := [id] |},
      sql_settlement (sql_invoice_by_id B [id]))]
  | FetchCustomers =>
    [(Sql {| statement := AllCustomers; params := [] |}, sql_settlement (sql_customers B []))]
  | FetchFilteredCustomers query =>
    [(Sql {| statement := FilteredCustomers; params := customersParams query |},
      sql_settlement (sql_customers_table B (customersParams query)))]
  end.

(** The events of the requests of a list of settlements. *)
Definition request_events (ss : list (Request * Reply (option Supabase.PostgrestError)))
    : list Event :=
  flat_map (fun s => [Issued (fst s); Settled (fst s)]) ss.

(** What the first rejected request was rejected with. *)
Fixpoint first_rejection (ss : list (Request * Reply (option Supabase.PostgrestError)))
    : option Thrown :=
  match ss with
  | [] => None
  | (_, Rejected x) :: _ => Some x
  | _ :: ss' => first_rejection ss'
  end.

(** The first structured error, in the order of the requests. *)
Fixpoint first_error (ss : list (Request * Reply (option Supabase.PostgrestError)))
    : option Supabase.PostgrestError :=
  match ss with
  | [] => None
  | (_, Fulfilled (Some err)) :: _ => Some err
  | _ :: ss' => first_error ss'
  end.

(** The failures a function raises of its own, on data that is
    missing though no request failed. *)
Definition own_failure (c : Call) (cause : Thrown) : Prop :=
  match c with
  | FetchRevenue => cause = JsError "No se encontraron datos en la tabla 'revenue'."
  | FetchLatestInvoices =>
    cause = JsTypeError "Cannot read properties of null (reading 'find')"
  | FetchInvoicesPages _ =>
    cause = JsTypeError "Cannot read properties of undefined (reading 'count')"
  | _ => False
  end.

(** A console payload carries the message [m] of a structured error:
    as the error itself, or at the end of the message of an [Error]. *)
Definition mentions (p : Payload) (m : string) : Prop :=
  match p with
  | PError e => Supabase.message e = m
  | PThrown (JsError s) => exists prefix, s = prefix ++ m
  | _ => False
  end.

Definition logged (tr : list Event) (m : string) : Prop :=
  exists label p, In (ConsoleError label p) tr /\ mentions p m.

(** ** What a reply delivers *)

Definition delivered_rows {T} (reply : Reply (Supabase.PostgrestResponse (list T))) : list T :=
  match reply with
  | Fulfilled {| Supabase.data := Some l |} => l
  | _ => []
  end.

Definition sql_rows {T} (reply : Reply (QueryResult T)) : list T :=
  match reply with
  | Fulfilled r => rows r
  | Rejected _ => []
  end.

(** An amount as the caller receives it: a number or a string. *)
Inductive AmountValue :=
| AsNumber (q : Q)
| AsString (s : string).

(** The amount of [cents] is presented: formatted as currency, or
    divided by 100. *)
Definition presented (cents : Z) (v : AmountValue) : Prop :=
  match v with
  | AsString s => s = formatCurrency cents
  | AsNumber q => (q == inject_Z cents / inject_Z 100)%Q
  end.

(** ** Sample stores and backends *)

(** An [or] filter that keeps every row. *)
Definition keep_all (filters : string) : Supabase.PostgrestError + (Invoice.t -> bool) :=
  inr (fun _ => true).

(** Two invoices, one paid and one pending, and two customers. *)
Definition ledger : Database :=
  {| db_invoices :=
       [ Invoice.mk "inv-1" "cus-1" 100000 "paid" "2023-01-05";
         Invoice.mk "inv-2" "cus-2" 50000 "pending" "2023-02-01" ];
     db_customers :=
       [ Customer.mk "cus-1" "Ada Lovelace" "ada@example.com" "/customers/ada.png";
         Customer.mk "cus-2" "Bo Diddley" "bo@example.com" "/customers/bo.png" ];
     db_revenue := [ Revenue.mk "Jan" 2000; Revenue.mk "Feb" 1800 ] |}.

Definition empty_store : Database :=
  {| db_invoices := []; db_customers := []; db_revenue := [] |}.

(** An invoice of a customer the store does not have. *)
Definition orphaned : Database :=
  {| db_invoices := [ Invoice.mk "inv-9" "cus-9" 15795 "pending" "2023-03-01" ];
     db_customers := [ Customer.mk "cus-1" "Ada Lovelace" "ada@example.com" "/customers/ada.png" ];
     db_revenue := [] |}.

(** A backend every request of which is rejected with [x]. *)
Definition unreachable (x : Thrown) : Backend :=
  {| rest_revenue := fun _ => Rejected x;
     rest_invoices_recent := fun _ => Rejected x;
     rest_customers := fun _ => Rejected x;
     rest_invoices_all := fun _ => Rejected x;
     rest_invoices_status := fun _ => Rejected x;
     rest_invoices_table := fun _ => Rejected x;
     sql_count := fun _ => Rejected x;
     sql_invoice_by_id := fun _ => Rejected x;
     sql_customers := fun _ => Rejected x;
     sql_customers_table := fun _ => Rejected x |}.

(** The store [db] behind a REST client whose requests all resolve to
    the structured error [msg]. *)
Definition erroring (msg : string) (db : Database) : Backend :=
  {| rest_revenue := fun _ => failure msg;
     rest_invoices_recent := fun _ => failure msg;
     rest_customers := fun _ => failure msg;
     rest_invoices_all := fun _ => failure msg;
     rest_invoices_status := fun _ => failure msg;
     rest_invoices_table := fun _ => failure msg;
     sql_count := store_count db;
     sql_invoice_by_id := store_invoice_by_id db;
     sql_customers := store_all_customers db;
     sql_customers_table := store_customers_table db |}.

(** The store [db] behind a REST client that resolves every request
    for the relation [table] to neither data nor error. *)
Definition absent {T} (table : string) (endpoint : PostgrestQuery -> Reply (Supabase.PostgrestResponse T))
    (q : PostgrestQuery) : Reply (Supabase.PostgrestResponse T) :=
  if (q_from q =? table)%string
  then Fulfilled {| Supabase.data := None; Supabase.error := None |}
  else endpoint q.

Definition without_data (table : string) (db : Database) : Backend :=
  let S := store keep_all db in
  {| rest_revenue := absent table (rest_revenue S);
     rest_invoices_recent := absent table (rest_invoices_recent S);
     rest_customers := absent table (rest_customers S);
     rest_invoices_all := absent table (rest_invoices_all S);
     rest_invoices_status := absent table (rest_invoices_status S);
     rest_invoices_table := absent table (rest_invoices_table S);
     sql_count := sql_count S;
     sql_invoice_by_id := sql_invoice_by_id S;
     sql_customers := sql_customers S;
     sql_customers_table := sql_customers_table S |}.

(** The store [db] behind a REST client that resolves every request
    for the relation [table] to the structured error [msg]. *)
Definition reporting {T} (table msg : string)
    (endpoint : PostgrestQuery -> Reply (Supabase.PostgrestResponse T))
    (q : PostgrestQuery) : Reply (Supabase.PostgrestResponse T) :=
  if (q_from q =? table)%string then failure msg else endpoint q.

Definition with_error (table msg : string) (db : Database) : Backend :=
  let S := store keep_all db in
  {| rest_revenue := reporting table msg (rest_revenue S);
     rest_invoices_recent := reporting table msg (rest_invoices_recent S);
     rest_customers := reporting table msg (rest_customers S);
     rest_invoices_all := reporting table msg (rest_invoices_all S);
     rest_invoices_status := reporting table msg (rest_invoices_status S);
     rest_invoices_table := reporting table msg (rest_invoices_table S);
     sql_count := sql_count S;
     sql_invoice_by_id := sql_invoice_by_id S;
     sql_customers := sql_customers S;
     sql_customers_table := sql_customers_table S |}.

(** ** Card summary, as the spec words it *)

(** The rows of a data set, none when the set is absent. *)
Definition present {T} (d : option (list T)) : list T :=
  match d with
  | Some l => l
  | None => []
  end.

Definition has_status (s : string) (i : Invoice.t) : bool := (Invoice.status i =? s)%string.

(** The sum of the amounts of the invoices that satisfy [p]. *)
Fixpoint total_where (p : Invoice.t -> bool) (l : list Invoice.t) : Z :=
  match l with
  | [] => 0
  | i :: l' => (if p i then Invoice.amount i else 0) + total_where p l'
  end.

(** The six request events of a [fetchCardData] whose requests all
    settle. *)
Definition cardRequests : list Event :=
  [ Issued (Rest allInvoicesQuery); Settled (Rest allInvoicesQuery);
    Issued (Rest allCustomersQuery); Settled (Rest allCustomersQuery);
    Issued (Rest invoiceStatusQuery); Settled (Rest invoiceStatusQuery) ].

(** ** Pagination, as the spec words it *)

(** A joined row matches [query]: one of the five fields contains it,
    without regard to case. *)
Definition matches (query : string) (ic : Invoice.t * Customer.t) : bool :=
  let pattern := "%" ++ query ++ "%" in
  ilike (Customer.name (snd ic)) pattern ||
  ilike (Customer.email (snd ic)) pattern ||
  ilike (text_of_int (Invoice.amount (fst ic))) pattern ||
  ilike (Invoice.date (fst ic)) pattern ||
  ilike (Invoice.status (fst ic)) pattern.

Definition matching_rows (db : Database) (query : string) : Z :=
  Z.of_nat (List.length (filter (matches query) (joined db))).

(** The unfiltered fetch: every invoice with its customer, latest
    first. *)
Definition unfiltered_fetch (db : Database) : list InvoicesTable.t :=
  map (with_customer db)
    (sort_by (fun a b => (Invoice.date b <=? Invoice.date a)%string) (db_invoices db)).

(** Rows in the order of their dates, latest first. *)
Definition latest_first (l : list InvoicesTable.t) : Prop :=
  Sorted (fun a b => (InvoicesTable.date b <=? InvoicesTable.date a)%string = true) l.

(** The record [fetchInvoiceById] returns for a stored invoice. *)
Definition invoiceForm (i : Invoice.t) : InvoiceForm.t :=
  {| InvoiceForm.id := Invoice.id i;
     InvoiceForm.customer_id := Invoice.customer_id i;
     InvoiceForm.amount := (inject_Z (Invoice.amount i) / inject_Z 100)%Q;
     InvoiceForm.status := Invoice.status i |}.

(** ** Traces *)

(** The requests a trace issued, in order. *)
Definition issued (tr : list Event) : list Request :=
  flat_map (fun e => match e with Issued r => [r] | _ => [] end) tr.

(** The [console.error] lines of a trace, in order. *)
Definition error_lines (tr : list Event) : list (string * Payload) :=
  flat_map (fun e => match e with ConsoleError l p => [(l, p)] | _ => [] end) tr.

(** The [console.log] lines of a trace, in order. *)
Definition log_lines (tr : list Event) : list (string * Payload) :=
  flat_map (fun e => match e with ConsoleLog l p => [(l, p)] | _ => [] end) tr.

(** A trace in which no request is issued while another is in flight:
    every request is settled right after it is issued. *)
Inductive one_at_a_time : list Event -> Prop :=
| oat_done : one_at_a_time []
| oat_request r tr : one_at_a_time tr -> one_at_a_time (Issued r :: Settled r :: tr)
| oat_error l p tr : one_at_a_time tr -> one_at_a_time (ConsoleError l p :: tr)
| oat_log l p tr : one_at_a_time tr -> one_at_a_time (ConsoleLog l p :: tr).

(** The rows of a completion that may be [null]. *)
Definition returned_rows {T} (c : Completion (option (list T))) : list T :=
  match c with
  | Normal (Some l) => l
  | _ => []
  end.

(** ** Views of the store *)

(** The invoices of a customer. *)
Definition invoices_of (db : Database) (c : Customer.t) : list Invoice.t :=
  filter (fun i => (Customer.id c =? Invoice.customer_id i)%string) (db_invoices db).

(** The customers an invoice refers to. *)
Definition customers_of (db : Database) (i : Invoice.t) : list Customer.t :=
  filter (fun c => (Invoice.customer_id i =? Customer.id c)%string) (db_customers db).

(** Every invoice refers to one customer and one only. *)
Definition referential (db : Database) : Prop :=
  forall i, In i (db_invoices db) -> List.length (customers_of db i) = 1%nat.

(** A row of the invoice list as [fetchLatestInvoices] shows it: the
    amount formatted, the customer's fields beside the invoice's. *)
Definition flattened (r : InvoicesTable.t) : LatestInvoice.t :=
  {| LatestInvoice.id := InvoicesTable.id r;
     LatestInvoice.amount := formatCurrency (InvoicesTable.amount r);
     LatestInvoice.name := option_map InvoicesTable.name (InvoicesTable.customers r);
     LatestInvoice.email := option_map InvoicesTable.email (InvoicesTable.customers r);
     LatestInvoice.image_url :=
       option_map InvoicesTable.image_url (InvoicesTable.customers r) |}.

(** The row of the customers table for the customer [c]. *)
Definition customerSummary (db : Database) (c : Customer.t) : CustomersTable.t :=
  {| CustomersTable.id := Customer.id c;
     CustomersTable.name := Customer.name c;
     CustomersTable.email := Customer.email c;
     CustomersTable.image_url := Customer.image_url c;
     CustomersTable.total_invoices := Z.of_nat (List.length (invoices_of db c));
     CustomersTable.total_pending :=
       formatCurrency (total_where (has_status "pending") (invoices_of db c));
     CustomersTable.total_paid :=
       formatCurrency (total_where (has_status "paid") (invoices_of db c)) |}.

(** A customer matches [query]: name or email contains it, without
    regard to case. *)
Definition customer_matches (query : string) (c : Customer.t) : bool :=
  ilike (Customer.name c) ("%" ++ query ++ "%") ||
  ilike (Customer.email c) ("%" ++ query ++ "%").

Definition sum_Z (l : list Z) : Z := fold_right Z.add 0 l.

(** A store without customers for its invoices, and one REST client
    that resolves the invoices with an error and rejects the customers. *)
Definition hidden_error (msg : string) (x : Thrown) (db : Database) : Backend :=
  let S := store keep_all db in
  {| rest_revenue := rest_revenue S;
     rest_invoices_recent := rest_invoices_recent S;
     rest_customers := fun _ => Rejected x;
     rest_invoices_all := fun _ => failure msg;
     rest_invoices_status := rest_invoices_status S;
     rest_invoices_table := rest_invoices_table S;
     sql_count := sql_count S;
     sql_invoice_by_id := sql_invoice_by_id S;
     sql_customers := sql_customers S;
     sql_customers_table := sql_customers_table S |}.

(** The store [db] behind a SQL client whose count statement delivers
    the rows [counts]. *)
Definition counting (counts : list Z) (db : Database) : Backend :=
  let S := store keep_all db in
  {| rest_revenue := rest_revenue S;
     rest_invoices_recent := rest_invoices_recent S;
     rest_customers := rest_customers S;
     rest_invoices_all := rest_invoices_all S;
     rest_invoices_status := rest_invoices_status S;
     rest_invoices_table := rest_invoices_table S;
     sql_count := fun _ => Fulfilled {| rows := map CountRow.mk counts |};
     sql_invoice_by_id := sql_invoice_by_id S;
     sql_customers := sql_customers S;
     sql_customers_table := sql_customers_table S |}.

(** * Properties *)

(** ** The monad *)

Lemma try_catch_normal {A} (tr : list Event) (a : A) (h : Thrown -> Js A) :
  try_catch (tr, Normal a) h = (tr, Normal a).
Proof. reflexivity. Qed.

Lemma try_catch_throw {A} (tr : list Event) (e : Thrown) (h : Thrown -> Js A) :
  try_catch (tr, Throw e) h = ((tr ++ events (h e))%list, outcome (h e)).
Proof. reflexivity. Qed.

(** The [catch] clause every function of the file has. *)
Lemma catch_clause {A} (body : Js A) (msg : string) :
  try_catch body
    (fun error => console_error "Database Error:" (PThrown error) ;; throw (JsError msg)) =
  match body with
  | (tr, Normal v) => (tr, Normal v)
  | (tr, Throw cause) =>
    ((tr ++ [ConsoleError "Database Error:" (PThrown cause)])%list, Throw (JsError msg))
  end.
Proof. destruct body as [tr [v | cause]]; reflexivity. Qed.

Lemma call_catches (B : Backend) (c : Call) :
  call B c =
  match try_block B c with
  | (tr, Normal v) => (tr, Normal v)
  | (tr, Throw cause) =>
    ((tr ++ [ConsoleError "Database Error:" (PThrown cause)])%list,
     Throw (JsError (failure_message c)))
  end.
Proof. destruct c; apply catch_clause. Qed.

(** ** Failures *)

(** The statement of C2 fails for a failure that another one overtakes.
    Here the invoices request of [fetchCardData] resolves with the
    error ["permission denied"] and the customers request is rejected:
    the rejection is caught and logged, the error of the invoices
    request is on no console line. *)
Lemma fetchCardData_rejection_hides_error :
  rest_invoices_all (hidden_error "permission denied" (Rejection "ECONNRESET") ledger)
    allInvoicesQuery
    = Fulfilled {| Supabase.data := None;
                   Supabase.error := Some {| Supabase.message := "permission denied" |} |}
  /\ fetchCardData (hidden_error "permission denied" (Rejection "ECONNRESET") ledger) =
       ([Issued (Rest allInvoicesQuery); Settled (Rest allInvoicesQuery);
         Issued (Rest allCustomersQuery); Settled (Rest allCustomersQuery);
         ConsoleError "Database Error:" (PThrown (Rejection "ECONNRESET"))],
        Throw (JsError "Failed to fetch card data."))
  /\ ~ logged
         (events (fetchCardData
                    (hidden_error "permission denied" (Rejection "ECONNRESET") ledger)))
         "permission denied".
Proof.
  split; [reflexivity|]. split; [reflexivity|].
  intros [label [p [Hin Hm]]]. cbn in Hin.
  repeat (destruct Hin as [Hin | Hin]; [try discriminate Hin|]).
  - injection Hin as _ <-. exact Hm.
  - exact Hin.
Qed.

Ltac find_log :=
  match goal with
  | |- logged ?tr _ =>
    match tr with
    | context [ConsoleError ?l (PError ?e)] =>
      exists l, (PError e); split; [cbn; auto 10 | reflexivity]
    | context [ConsoleError ?l (PThrown (JsError ?s))] =>
      exists l, (PThrown (JsError s)); split;
      [ cbn; auto 10
      | first [ exists ""; reflexivity
              | exists "Supabase query failed: "; reflexivity
              | exists "Failed to fetch customers: "; reflexivity
              | exists "Error fetching invoices: "; reflexivity
              | exists "Error fetching customers: "; reflexivity
              | exists "Error fetching invoice statuses: "; reflexivity ] ]
    end
  end.

Ltac settle_failure :=
  cbn;
  repeat match goal with
         | |- _ /\ _ => split
         | |- forall _, _ => intro
         | H : Some _ = Some _ |- _ => injection H as H; subst
         | H : Some _ = None |- _ => discriminate H
         | H : None = Some _ |- _ => discriminate H
         | |- logged _ _ => find_log
         | |- _ = _ => reflexivity
         | |- True => exact I
         end.

(** C2, amended.  Whatever the [try] block of a query function throws
    is caught by the function, written to the console under ["Database
    Error:"] and replaced by [Error("Failed to fetch X.")], with an [X]
    of the function's own; the caller sees that message and nothing of
    the cause.  The failure that ends a call is the rejection of a
    request, if one is rejected; failing that the first structured
    error among the requests the call made, in their order; failing
    that a failure of the function's own on missing data, and then
    only in [fetchRevenue], [fetchLatestInvoices] and
    [fetchInvoicesPages].  A rejection is logged as it is and is the one
    line on the console; the message of the first structured error is
    logged.  The requests the call made are those of [settlements]. *)
Theorem ending_failure_caught_logged_generic (B : Backend) (c : Call) :
  call B c =
    match try_block B c with
    | (tr, Normal v) => (tr, Normal v)
    | (tr, Throw cause) =>
      ((tr ++ [ConsoleError "Database Error:" (PThrown cause)])%list,
       Throw (JsError (failure_message c)))
    end
  /\ (forall c', failure_message c = failure_message c' -> function_name c = function_name c')
  /\ issued (events (call B c)) = map fst (settlements B c)
  /\ (forall x, first_rejection (settlements B c) = Some x ->
        call B c =
          ((request_events (settlements B c)
            ++ [ConsoleError "Database Error:" (PThrown x)])%list,
           Throw (JsError (failure_message c))))
  /\ (forall err,
        first_rejection (settlements B c) = None ->
        first_error (settlements B c) = Some err ->
        outcome (call B c) = Throw (JsError (failure_message c)) /\
        logged (events (call B c)) (Supabase.message err))
  /\ (first_rejection (settlements B c) = None ->
      first_error (settlements B c) = None ->
      match outcome (try_block B c) with
      | Normal _ => True
      | Throw cause => own_failure c cause
      end).
Proof.
  split; [apply call_catches|].
  split.
  { intros c' H. destruct c, c'; try reflexivity; discriminate H. }
  destruct c; cbn [call try_block settlements failure_message failure_subject own_failure].
  - unfold fetchRevenue, fetchRevenue_try, await_rest.
    destruct (rest_revenue B revenueQuery) as [[[d|] [e|]] | x]; settle_failure.
  - unfold fetchLatestInvoices, fetchLatestInvoices_try, await_rest.
    destruct (rest_invoices_recent B latestInvoicesQuery) as [[[[|i data]|] [e|]] | x];
      try solve [settle_failure].
    cbn. destruct (rest_customers B _) as [[[cs|] [e|]] | x]; settle_failure.
  - unfold fetchCardData, fetchCardData_try, await_rest.
    destruct (rest_invoices_all B allInvoicesQuery) as [[d1 [e1|]] | x1];
      try solve [settle_failure];
      (destruct (rest_customers B allCustomersQuery) as [[d2 [e2|]] | x2];
       try solve [settle_failure];
       destruct (rest_invoices_status B invoiceStatusQuery) as [[d3 [e3|]] | x3];
       settle_failure).
  - unfold fetchFilteredInvoices, fetchFilteredInvoices_try, await_rest.
    destruct (rest_invoices_table B _) as [[d [e|]] | x]; settle_failure.
  - unfold fetchInvoicesPages, fetchInvoicesPages_try, await_sql.
    destruct (sql_count B _) as [[[|r0 rest]] | x]; settle_failure.
  - unfold fetchInvoiceById, fetchInvoiceById_try, await_sql.
    destruct (sql_invoice_by_id B _) as [[rs] | x]; settle_failure.
  - unfold fetchCustomers, fetchCustomers_try, await_sql.
    destruct (sql_customers B _) as [[rs] | x]; settle_failure.
  - unfold fetchFilteredCustomers, fetchFilteredCustomers_try, await_sql.
    destruct (sql_customers_table B _) as [[rs] | x]; settle_failure.
Qed.

Lemma ending_failure_caught_logged_generic_witness :
  (first_rejection (settlements (unreachable (Rejection "ECONNREFUSED"))
                      (FetchFilteredCustomers "ada"))
     = Some (Rejection "ECONNREFUSED") /\
   call (unreachable (Rejection "ECONNREFUSED")) (FetchFilteredCustomers "ada")
     = ([Issued (first_request (FetchFilteredCustomers "ada"));
         Settled (first_request (FetchFilteredCustomers "ada"));
         ConsoleError "Database Error:" (PThrown (Rejection "ECONNREFUSED"))],
        Throw (JsError "Failed to fetch customer table.")))
  /\
  (first_rejection (settlements (with_error "customers" "permission denied" ledger)
                      FetchCardData) = None /\
   first_error (settlements (with_error "customers" "permission denied" ledger)
                  FetchCardData)
     = Some {| Supabase.message := "permission denied" |} /\
   outcome (call (with_error "customers" "permission denied" ledger) FetchCardData)
     = Throw (JsError "Failed to fetch card data.") /\
   logged (events (call (with_error "customers" "permission denied" ledger) FetchCardData))
     "permission denied")
  /\
  (first_error (settlements (with_error "customers" "permission denied" ledger)
                  FetchLatestInvoices)
     = Some {| Supabase.message := "permission denied" |} /\
   outcome (call (with_error "customers" "permission denied" ledger) FetchLatestInvoices)
     = Throw (JsError "Failed to fetch the latest invoices.")).
Proof.
  split; [|split].
  - split; [reflexivity|].
    exact (proj1 (proj2 (proj2 (proj2
             (ending_failure_caught_logged_generic (unreachable (Rejection "ECONNREFUSED"))
                (FetchFilteredCustomers "ada")))))
             (Rejection "ECONNREFUSED") eq_refl).
  - split; [reflexivity|]. split; [reflexivity|].
    exact (proj1 (proj2 (proj2 (proj2 (proj2
             (ending_failure_caught_logged_generic
                (with_error "customers" "permission denied" ledger) FetchCardData)))))
             {| Supabase.message := "permission denied" |} eq_refl eq_refl).
  - split; [reflexivity|].
    exact (proj1 (proj1 (proj2 (proj2 (proj2 (proj2
             (ending_failure_caught_logged_generic
                (with_error "customers" "permission denied" ledger) FetchLatestInvoices)))))
             {| Supabase.message := "permission denied" |} eq_refl eq_refl)).
Defined.

(** ** The revenue query *)

(** The statement of C3 fails on an empty relation: the client delivers
    an empty array, which is truthy, and [fetchRevenue] returns it. *)
Lemma fetchRevenue_returns_empty_rows :
  rest_revenue (store keep_all empty_store) revenueQuery
    = Fulfilled {| Supabase.data := Some []; Supabase.error := None |}
  /\ fetchRevenue (store keep_all empty_store)
    = ([Issued (Rest revenueQuery); Settled (Rest revenueQuery)], Normal [])
  /\ outcome (fetchRevenue (store keep_all empty_store))
    <> Throw (JsError "Failed to fetch revenue data.").
Proof. repeat split. discriminate. Qed.

(** C3, amended.  [fetchRevenue] throws [Error("Failed to fetch revenue
    data.")] when the query resolves with a structured error and when it
    resolves with neither error nor data ([null]); what went wrong is on
    the console and not in what is thrown.  A query that resolves with
    rows, none included, returns them. *)
Theorem fetchRevenue_failures (B : Backend) (r : Supabase.PostgrestResponse (list Revenue.t)) :
  rest_revenue B revenueQuery = Fulfilled r ->
  (forall err, Supabase.error r = Some err ->
     fetchRevenue B =
       ([Issued (Rest revenueQuery); Settled (Rest revenueQuery);
         ConsoleError "Database Error:" (PThrown (JsError (Supabase.message err)))],
        Throw (JsError "Failed to fetch revenue data.")))
  /\ (Supabase.error r = None -> Supabase.data r = None ->
     fetchRevenue B =
       ([Issued (Rest revenueQuery); Settled (Rest revenueQuery);
         ConsoleError "Database Error:"
           (PThrown (JsError "No se encontraron datos en la tabla 'revenue'."))],
        Throw (JsError "Failed to fetch revenue data.")))
  /\ (forall data, Supabase.error r = None -> Supabase.data r = Some data ->
     fetchRevenue B = ([Issued (Rest revenueQuery); Settled (Rest revenueQuery)], Normal data)).
Proof.
  intros H. unfold fetchRevenue, fetchRevenue_try, await_rest. rewrite H.
  destruct r as [d e]; cbn.
  repeat split.
  - intros err ->. reflexivity.
  - intros -> ->. reflexivity.
  - intros data -> ->. reflexivity.
Qed.

Lemma fetchRevenue_failures_witness :
  fetchRevenue (erroring "permission denied" ledger) =
    ([Issued (Rest revenueQuery); Settled (Rest revenueQuery);
      ConsoleError "Database Error:" (PThrown (JsError "permission denied"))],
     Throw (JsError "Failed to fetch revenue data."))
  /\ fetchRevenue (without_data "revenue" ledger) =
    ([Issued (Rest revenueQuery); Settled (Rest revenueQuery);
      ConsoleError "Database Error:"
        (PThrown (JsError "No se encontraron datos en la tabla 'revenue'."))],
     Throw (JsError "Failed to fetch revenue data."))
  /\ fetchRevenue (store keep_all ledger) =
    ([Issued (Rest revenueQuery); Settled (Rest revenueQuery)],
     Normal [ Revenue.mk "Jan" 2000; Revenue.mk "Feb" 1800 ]).
Proof.
  split; [|split].
  - exact (proj1 (fetchRevenue_failures (erroring "permission denied" ledger) _ eq_refl)
             _ eq_refl).
  - exact (proj1 (proj2 (fetchRevenue_failures (without_data "revenue" ledger) _ eq_refl))
             eq_refl eq_refl).
  - exact (proj2 (proj2 (fetchRevenue_failures (store keep_all ledger) _ eq_refl))
             _ eq_refl eq_refl).
Defined.

(** ** Amounts *)

Lemma map_Forall2 {A C} (f : A -> C) (P : A -> C -> Prop) (l : list A) :
  (forall a, P a (f a)) -> Forall2 P l (map f l).
Proof. intros H. induction l; cbn; constructor; auto. Qed.

(** The first page of the sample ledger comes back with its amounts
    as stored, in integer cents: 100000 is neither ["$1,000.00"] nor
    1000.  The statement of C1 fails there. *)
Lemma fetchFilteredInvoices_returns_raw_cents :
  db_invoices ledger =
    [ Invoice.mk "inv-1" "cus-1" 100000 "paid" "2023-01-05";
      Invoice.mk "inv-2" "cus-2" 50000 "pending" "2023-02-01" ]
  /\ outcome (fetchFilteredInvoices (store keep_all ledger) "" 1) =
    Normal (Some
      [ InvoicesTable.mk "inv-2" 50000 "2023-02-01" "pending"
          (Some (InvoicesTable.mkCustomer "Bo Diddley" "bo@example.com" "/customers/bo.png"));
        InvoicesTable.mk "inv-1" 100000 "2023-01-05" "paid"
          (Some (InvoicesTable.mkCustomer "Ada Lovelace" "ada@example.com"
                   "/customers/ada.png")) ])
  /\ ~ presented 100000 (AsNumber (Number 100000))
  /\ ~ presented 50000 (AsNumber (Number 50000)).
Proof.
  split; [reflexivity|]. split; [reflexivity|].
  split; intros H; discriminate H.
Qed.

(** C1, amended.  Three functions return amounts as currency strings
    ([fetchLatestInvoices] the amount of each invoice, [fetchCardData]
    its two totals, [fetchFilteredCustomers] the two totals of each
    customer) and [fetchInvoiceById] returns the amount divided by 100.
    [fetchFilteredInvoices] returns the rows of the client as they are,
    amounts in integer cents. *)
Theorem amounts_in_results (B : Backend) :
  (forall out, outcome (fetchLatestInvoices B) = Normal out ->
     Forall2 (fun r o => presented (RecentInvoice.amount r) (AsString (LatestInvoice.amount o)))
       (delivered_rows (rest_invoices_recent B latestInvoicesQuery)) out)
  /\ (forall card, outcome (fetchCardData B) = Normal card ->
     let invoiceData := delivered_rows (rest_invoices_all B allInvoicesQuery) in
     presented (totalWithStatus "paid" (Some invoiceData))
       (AsString (CardData.totalPaidInvoices card)) /\
     presented (totalWithStatus "pending" (Some invoiceData))
       (AsString (CardData.totalPendingInvoices card)))
  /\ (forall id invoice, outcome (fetchInvoiceById B id) = Normal (Some invoice) ->
     exists r, hd_error (sql_rows (sql_invoice_by_id B [id])) = Some r /\
       presented (InvoiceForm.row_amount r) (AsNumber (InvoiceForm.amount invoice)))
  /\ (forall query out, outcome (fetchFilteredCustomers B query) = Normal out ->
     Forall2
       (fun r o =>
          presented (CustomersTable.row_total_pending r)
            (AsString (CustomersTable.total_pending o)) /\
          presented (CustomersTable.row_total_paid r)
            (AsString (CustomersTable.total_paid o)))
       (sql_rows (sql_customers_table B (customersParams query))) out)
  /\ (forall query currentPage out,
     outcome (fetchFilteredInvoices B query currentPage) = Normal out ->
     exists r, rest_invoices_table B (invoicesQuery query currentPage) = Fulfilled r /\
       out = Supabase.data r).
Proof.
  repeat split.
  - intros out. unfold fetchLatestInvoices, fetchLatestInvoices_try, await_rest.
    destruct (rest_invoices_recent B latestInvoicesQuery) as [[d [e|]] | x]; cbn;
      try discriminate.
    destruct d as [[|i data]|]; cbn.
    + intros H. injection H as <-. constructor.
    + destruct (rest_customers B _) as [[cs [e|]] | x]; cbn; try discriminate.
      destruct cs as [cs|]; cbn; try discriminate.
      intros H. injection H as <-.
      apply (map_Forall2 (latestInvoice cs)
               (fun r o => presented (RecentInvoice.amount r)
                             (AsString (LatestInvoice.amount o))) (i :: data)).
      reflexivity.
    + intros H. injection H as <-. constructor.
  - revert H. unfold fetchCardData, fetchCardData_try, await_rest.
    destruct (rest_invoices_all B allInvoicesQuery) as [[d1 e1] | x]; cbn; try discriminate.
    destruct (rest_customers B allCustomersQuery) as [[d2 e2] | x]; cbn; try discriminate.
    destruct (rest_invoices_status B invoiceStatusQuery) as [[d3 e3] | x]; cbn;
      try discriminate.
    destruct e1, e2, e3; cbn; try discriminate.
    intros H. injection H as <-. destruct d1; reflexivity.
  - revert H. unfold fetchCardData, fetchCardData_try, await_rest.
    destruct (rest_invoices_all B allInvoicesQuery) as [[d1 e1] | x]; cbn; try discriminate.
    destruct (rest_customers B allCustomersQuery) as [[d2 e2] | x]; cbn; try discriminate.
    destruct (rest_invoices_status B invoiceStatusQuery) as [[d3 e3] | x]; cbn;
      try discriminate.
    destruct e1, e2, e3; cbn; try discriminate.
    intros H. injection H as <-. destruct d1; reflexivity.
  - intros id invoice. unfold fetchInvoiceById, fetchInvoiceById_try, await_sql.
    destruct (sql_invoice_by_id B [id]) as [[rs] | x]; cbn; try discriminate.
    destruct rs as [|r rs]; cbn; try discriminate.
    intros H. injection H as <-. exists r. split; [reflexivity|]. cbn. reflexivity.
  - intros query out. unfold fetchFilteredCustomers, fetchFilteredCustomers_try, await_sql.
    destruct (sql_customers_table B _) as [[rs] | x]; cbn; try discriminate.
    intros H. injection H as <-.
    apply (map_Forall2 formatTotals
             (fun r o =>
                presented (CustomersTable.row_total_pending r)
                  (AsString (CustomersTable.total_pending o)) /\
                presented (CustomersTable.row_total_paid r)
                  (AsString (CustomersTable.total_paid o)))).
    intros a. split; reflexivity.
  - intros query currentPage out.
    unfold fetchFilteredInvoices, fetchFilteredInvoices_try, await_rest.
    destruct (rest_invoices_table B _) as [[d [e|]] | x]; cbn; try discriminate.
    intros H. injection H as <-. eexists. split; reflexivity.
Qed.

Lemma amounts_in_results_witness :
  exists r,
    hd_error (sql_rows (sql_invoice_by_id (store keep_all ledger) ["inv-1"])) = Some r /\
    presented (InvoiceForm.row_amount r) (AsNumber (Number 100000 / Number 100)%Q).
Proof.
  exact (proj1 (proj2 (proj2 (amounts_in_results (store keep_all ledger))))
           "inv-1"
           {| InvoiceForm.id := "inv-1"; InvoiceForm.customer_id := "cus-1";
              InvoiceForm.amount := (Number 100000 / Number 100)%Q;
              InvoiceForm.status := "paid" |}
           eq_refl).
Defined.

(** ** Card summary *)

Lemma fold_sum_shift {A} (amount : A -> Z) (l : list A) (acc : Z) :
  fold_left (fun sum curr => sum + amount curr) l acc = acc + reduce_sum amount l.
Proof.
  unfold reduce_sum. revert acc.
  induction l as [|a l IH]; intros acc; cbn.
  - lia.
  - rewrite IH, (IH (amount a)). lia.
Qed.

Lemma reduce_sum_cons {A} (amount : A -> Z) (a : A) (l : list A) :
  reduce_sum amount (a :: l) = amount a + reduce_sum amount l.
Proof. unfold reduce_sum at 1. cbn. apply fold_sum_shift. Qed.

Lemma reduce_sum_filter (p : Invoice.t -> bool) (l : list Invoice.t) :
  reduce_sum Invoice.amount (filter p l) = total_where p l.
Proof.
  induction l as [|i l IH]; [reflexivity|].
  simpl filter. simpl total_where.
  destruct (p i); [rewrite reduce_sum_cons|]; rewrite IH; lia.
Qed.

Lemma totalWithStatus_present (s : string) (d : option (list Invoice.t)) :
  totalWithStatus s d = total_where (has_status s) (present d).
Proof. destruct d; cbn; [apply reduce_sum_filter | reflexivity]. Qed.

Lemma total_where_split (l : list Invoice.t) :
  total_where (has_status "paid") l + total_where (has_status "pending") l =
  total_where (fun i => has_status "paid" i || has_status "pending" i) l.
Proof.
  induction l as [|i l IH]; cbn; [reflexivity|].
  unfold has_status at 1 3 5 6.
  destruct (Invoice.status i =? "paid")%string eqn:Hpaid.
  - apply String.eqb_eq in Hpaid. rewrite Hpaid. cbn. lia.
  - cbn. destruct (Invoice.status i =? "pending")%string; lia.
Qed.

(** [fetchCardData] when its three requests resolve without error. *)
Lemma fetchCardData_resolved (B : Backend)
    (d1 : option (list Invoice.t)) (d2 : option (list Customer.t))
    (d3 : option (list InvoiceStatus.t)) :
  rest_invoices_all B allInvoicesQuery
    = Fulfilled {| Supabase.data := d1; Supabase.error := None |} ->
  rest_customers B allCustomersQuery
    = Fulfilled {| Supabase.data := d2; Supabase.error := None |} ->
  rest_invoices_status B invoiceStatusQuery
    = Fulfilled {| Supabase.data := d3; Supabase.error := None |} ->
  fetchCardData B =
    (cardRequests,
     Normal {| CardData.numberOfCustomers := length_ (present d2);
               CardData.numberOfInvoices := length_ (present d1);
               CardData.totalPaidInvoices :=
                 formatCurrency (total_where (has_status "paid") (present d1));
               CardData.totalPendingInvoices :=
                 formatCurrency (total_where (has_status "pending") (present d1)) |}).
Proof.
  intros H1 H2 H3.
  unfold fetchCardData, fetchCardData_try, await_rest. rewrite H1, H2, H3. cbn.
  rewrite !totalWithStatus_present.
  destruct d1, d2; reflexivity.
Qed.

(** C4.  When its three requests resolve without error, [fetchCardData]
    returns the number of invoice rows whatever their status, the number
    of customer rows, and the formatted sums of the amounts of the paid
    and of the pending invoices, an absent data set counting as no
    rows.  The two sums together do not exceed the sum over the
    invoices that are paid or pending.  On the two invoices and two
    customers of the spec's example the result is 2, 2, ["$1,000.00"]
    and ["$500.00"]. *)
Theorem fetchCardData_summary (B : Backend)
    (invoiceData : option (list Invoice.t)) (customerData : option (list Customer.t))
    (statusData : option (list InvoiceStatus.t)) :
  rest_invoices_all B allInvoicesQuery
    = Fulfilled {| Supabase.data := invoiceData; Supabase.error := None |} ->
  rest_customers B allCustomersQuery
    = Fulfilled {| Supabase.data := customerData; Supabase.error := None |} ->
  rest_invoices_status B invoiceStatusQuery
    = Fulfilled {| Supabase.data := statusData; Supabase.error := None |} ->
  outcome (fetchCardData B) =
    Normal {| CardData.numberOfCustomers := Z.of_nat (List.length (present customerData));
              CardData.numberOfInvoices := Z.of_nat (List.length (present invoiceData));
              CardData.totalPaidInvoices :=
                formatCurrency (total_where (has_status "paid") (present invoiceData));
              CardData.totalPendingInvoices :=
                formatCurrency (total_where (has_status "pending") (present invoiceData)) |}
  /\ total_where (has_status "paid") (present invoiceData) +
     total_where (has_status "pending") (present invoiceData)
     <= total_where (fun i => has_status "paid" i || has_status "pending" i)
          (present invoiceData)
  /\ (invoiceData = None ->
      outcome (fetchCardData B) =
        Normal {| CardData.numberOfCustomers := Z.of_nat (List.length (present customerData));
                  CardData.numberOfInvoices := 0;
                  CardData.totalPaidInvoices := formatCurrency 0;
                  CardData.totalPendingInvoices := formatCurrency 0 |})
  /\ outcome (fetchCardData (store keep_all ledger)) =
     Normal {| CardData.numberOfCustomers := 2;
               CardData.numberOfInvoices := 2;
               CardData.totalPaidInvoices := "$1,000.00";
               CardData.totalPendingInvoices := "$500.00" |}.
Proof.
  intros H1 H2 H3.
  split.
  - rewrite (fetchCardData_resolved B _ _ _ H1 H2 H3). reflexivity.
  - split; [rewrite total_where_split; lia|].
    split; [|reflexivity].
    intros ->. rewrite (fetchCardData_resolved B _ _ _ H1 H2 H3). reflexivity.
Qed.

Lemma fetchCardData_summary_witness :
  db_invoices ledger =
    [ Invoice.mk "inv-1" "cus-1" 100000 "paid" "2023-01-05";
      Invoice.mk "inv-2" "cus-2" 50000 "pending" "2023-02-01" ]
  /\ List.length (db_customers ledger) = 2%nat
  /\ outcome (fetchCardData (store keep_all ledger)) =
     Normal {| CardData.numberOfCustomers := 2;
               CardData.numberOfInvoices := 2;
               CardData.totalPaidInvoices := formatCurrency 100000;
               CardData.totalPendingInvoices := formatCurrency 50000 |}.
Proof.
  split; [reflexivity|]. split; [reflexivity|].
  exact (proj1 (fetchCardData_summary (store keep_all ledger)
                  (Some (db_invoices ledger)) (Some (db_customers ledger))
                  (Some (map (fun i => {| InvoiceStatus.status := Invoice.status i;
                                          InvoiceStatus.amount := Invoice.amount i |})
                             (db_invoices ledger)))
                  eq_refl eq_refl eq_refl)).
Defined.

(** The statement of C10 fails when the absent data set is the
    customers': no request reports an error, one data set is absent,
    and the totals are those of the invoices, not the formatting of 0. *)
Lemma fetchCardData_absent_customers_keeps_totals :
  rest_invoices_all (without_data "customers" ledger) allInvoicesQuery
    = Fulfilled {| Supabase.data := Some (db_invoices ledger); Supabase.error := None |}
  /\ rest_customers (without_data "customers" ledger) allCustomersQuery
    = Fulfilled {| Supabase.data := None; Supabase.error := None |}
  /\ (exists d3, rest_invoices_status (without_data "customers" ledger) invoiceStatusQuery
    = Fulfilled {| Supabase.data := Some d3; Supabase.error := None |})
  /\ outcome (fetchCardData (without_data "customers" ledger)) =
     Normal {| CardData.numberOfCustomers := 0;
               CardData.numberOfInvoices := 2;
               CardData.totalPaidInvoices := "$1,000.00";
               CardData.totalPendingInvoices := "$500.00" |}
  /\ formatCurrency 0 = "$0.00"
  /\ "$1,000.00" <> formatCurrency 0
  /\ "$500.00" <> formatCurrency 0.
Proof.
  split; [reflexivity|]. split; [reflexivity|].
  split; [eexists; reflexivity|].
  split; [reflexivity|]. split; [reflexivity|].
  split; discriminate.
Qed.

(** C10, amended.  When the three requests resolve without error,
    [fetchCardData] returns normally whichever data sets are absent.
    With the invoice rows ([select('*')]) absent, the number of invoices
    is 0 and both totals are the formatting of 0; with the customer rows
    absent, the number of customers is 0.  With the invoice rows
    present, count and totals are theirs, whatever else is absent. *)
Theorem fetchCardData_absent_data (B : Backend)
    (d1 : option (list Invoice.t)) (d2 : option (list Customer.t))
    (d3 : option (list InvoiceStatus.t)) :
  rest_invoices_all B allInvoicesQuery
    = Fulfilled {| Supabase.data := d1; Supabase.error := None |} ->
  rest_customers B allCustomersQuery
    = Fulfilled {| Supabase.data := d2; Supabase.error := None |} ->
  rest_invoices_status B invoiceStatusQuery
    = Fulfilled {| Supabase.data := d3; Supabase.error := None |} ->
  exists card,
    fetchCardData B = (cardRequests, Normal card)
    /\ (d1 = None ->
        CardData.numberOfInvoices card = 0 /\
        CardData.totalPaidInvoices card = formatCurrency 0 /\
        CardData.totalPendingInvoices card = formatCurrency 0)
    /\ (d2 = None -> CardData.numberOfCustomers card = 0)
    /\ (forall invoices, d1 = Some invoices ->
        CardData.numberOfInvoices card = Z.of_nat (List.length invoices) /\
        CardData.totalPaidInvoices card
          = formatCurrency (total_where (has_status "paid") invoices) /\
        CardData.totalPendingInvoices card
          = formatCurrency (total_where (has_status "pending") invoices))
    /\ (forall customers, d2 = Some customers ->
        CardData.numberOfCustomers card = Z.of_nat (List.length customers)).
Proof.
  intros H1 H2 H3.
  eexists. split; [apply (fetchCardData_resolved B d1 d2 d3 H1 H2 H3)|].
  cbn [CardData.numberOfInvoices CardData.numberOfCustomers
       CardData.totalPaidInvoices CardData.totalPendingInvoices].
  repeat split; intros; subst; reflexivity.
Qed.

Lemma fetchCardData_absent_data_witness :
  exists card,
    fetchCardData (without_data "invoices" ledger) = (cardRequests, Normal card)
    /\ CardData.numberOfInvoices card = 0
    /\ CardData.totalPaidInvoices card = "$0.00"
    /\ CardData.totalPendingInvoices card = "$0.00"
    /\ CardData.numberOfCustomers card = 2.
Proof.
  destruct (fetchCardData_absent_data (without_data "invoices" ledger)
              None (Some (db_customers ledger)) None eq_refl eq_refl eq_refl)
    as [card [Hrun [Hinv [_ [_ Hcus]]]]].
  exists card.
  destruct (Hinv eq_refl) as [Hn [Hpaid Hpending]].
  split; [exact Hrun|]. split; [exact Hn|].
  split; [exact Hpaid|]. split; [exact Hpending|].
  exact (Hcus _ eq_refl).
Defined.

(** C9.  [fetchCardData] awaits each of its three requests before it
    issues the next: the second request goes out after the first has
    settled, the third after the second, and a request that is rejected
    leaves the later ones unissued.  No two requests are in flight
    together. *)
Theorem fetchCardData_requests_in_sequence (B : Backend) :
  match rest_invoices_all B allInvoicesQuery,
        rest_customers B allCustomersQuery,
        rest_invoices_status B invoiceStatusQuery with
  | Rejected _, _, _ =>
    exists log, events (fetchCardData B) =
      ([Issued (Rest allInvoicesQuery); Settled (Rest allInvoicesQuery)] ++ log)%list
      /\ forall r, ~ In (Issued r) log
  | Fulfilled _, Rejected _, _ =>
    exists log, events (fetchCardData B) =
      ([Issued (Rest allInvoicesQuery); Settled (Rest allInvoicesQuery);
        Issued (Rest allCustomersQuery); Settled (Rest allCustomersQuery)] ++ log)%list
      /\ forall r, ~ In (Issued r) log
  | Fulfilled _, Fulfilled _, _ =>
    exists log, events (fetchCardData B) = (cardRequests ++ log)%list
      /\ forall r, ~ In (Issued r) log
  end.
Proof.
  unfold fetchCardData, fetchCardData_try, await_rest.
  destruct (rest_invoices_all B allInvoicesQuery) as [[d1 e1] | x1]; cbn.
  - destruct (rest_customers B allCustomersQuery) as [[d2 e2] | x2]; cbn.
    + destruct (rest_invoices_status B invoiceStatusQuery) as [[d3 e3] | x3]; cbn.
      * destruct e1, e2, e3; cbn; eexists; (split; [reflexivity|]);
          cbn; intros r H; repeat (destruct H as [H | H]; try discriminate H); exact H.
      * eexists; (split; [reflexivity|]);
          cbn; intros r H; repeat (destruct H as [H | H]; try discriminate H); exact H.
    + eexists; (split; [reflexivity|]);
        cbn; intros r H; repeat (destruct H as [H | H]; try discriminate H); exact H.
  - eexists; (split; [reflexivity|]);
      cbn; intros r H; repeat (destruct H as [H | H]; try discriminate H); exact H.
Qed.

(** ** Latest invoices *)

Lemma find_no_match {A} (f : A -> bool) (l : list A) :
  (forall a, In a l -> f a = false) -> find f l = None.
Proof.
  induction l as [|a l IH]; cbn; intros H; [reflexivity|].
  rewrite (H a (or_introl eq_refl)). apply IH. intros b Hb. apply H. now right.
Qed.

Lemma latestInvoice_without_customer (customers : list Customer.t) (invoice : RecentInvoice.t) :
  (forall c, In c customers -> Customer.id c <> RecentInvoice.customer_id invoice) ->
  latestInvoice customers invoice =
    {| LatestInvoice.id := RecentInvoice.id invoice;
       LatestInvoice.amount := formatCurrency (RecentInvoice.amount invoice);
       LatestInvoice.name := None;
       LatestInvoice.email := None;
       LatestInvoice.image_url := None |}.
Proof.
  intros H. unfold latestInvoice.
  rewrite find_no_match; [reflexivity|].
  intros c Hc. apply String.eqb_neq. now apply H.
Qed.

(** C8.  With no invoice rows, [fetchLatestInvoices] returns the empty
    sequence and asks for no customer; this is what happens on a store
    without invoices.  With invoice rows, every invoice whose customer
    id is the id of none of the customers fetched next comes back with
    [name], [email] and [image_url] undefined, and the call completes
    normally. *)
Theorem fetchLatestInvoices_missing_data (B : Backend) :
  (forall d,
     rest_invoices_recent B latestInvoicesQuery
       = Fulfilled {| Supabase.data := d; Supabase.error := None |} ->
     present d = [] ->
     fetchLatestInvoices B =
       ([Issued (Rest latestInvoicesQuery); Settled (Rest latestInvoicesQuery)], Normal []))
  /\ (forall data customers,
     rest_invoices_recent B latestInvoicesQuery
       = Fulfilled {| Supabase.data := Some data; Supabase.error := None |} ->
     data <> [] ->
     rest_customers B (customersQuery (map RecentInvoice.customer_id data))
       = Fulfilled {| Supabase.data := Some customers; Supabase.error := None |} ->
     exists out,
       outcome (fetchLatestInvoices B) = Normal out /\
       List.length out = List.length data /\
       forall k invoice,
         nth_error data k = Some invoice ->
         (forall c, In c customers -> Customer.id c <> RecentInvoice.customer_id invoice) ->
         nth_error out k =
           Some {| LatestInvoice.id := RecentInvoice.id invoice;
                   LatestInvoice.amount := formatCurrency (RecentInvoice.amount invoice);
                   LatestInvoice.name := None;
                   LatestInvoice.email := None;
                   LatestInvoice.image_url := None |})
  /\ (forall or_filter db,
     db_invoices db = [] ->
     outcome (fetchLatestInvoices (store or_filter db)) = Normal []).
Proof.
  split; [|split].
  - intros d H Hd. unfold fetchLatestInvoices, fetchLatestInvoices_try, await_rest.
    rewrite H. destruct d as [[|i l]|]; cbn in *; [reflexivity | discriminate | reflexivity].
  - intros data customers H Hne Hc.
    exists (map (latestInvoice customers) data).
    split; [|split].
    + unfold fetchLatestInvoices, fetchLatestInvoices_try, await_rest.
      rewrite H. cbn. destruct data as [|i l]; [contradiction|].
      rewrite Hc. reflexivity.
    + apply length_map.
    + intros k invoice Hk Hnone.
      rewrite nth_error_map, Hk. cbn.
      now rewrite latestInvoice_without_customer.
  - intros or_filter db Hdb.
    unfold fetchLatestInvoices, fetchLatestInvoices_try, await_rest.
    cbn. unfold store_invoices_recent, ordered, window. rewrite Hdb. reflexivity.
Qed.

Lemma fetchLatestInvoices_missing_data_witness :
  outcome (fetchLatestInvoices (store keep_all empty_store)) = Normal []
  /\ exists out,
       outcome (fetchLatestInvoices (store keep_all orphaned)) = Normal out /\
       nth_error out 0 =
         Some {| LatestInvoice.id := "inv-9";
                 LatestInvoice.amount := "$157.95";
                 LatestInvoice.name := None;
                 LatestInvoice.email := None;
                 LatestInvoice.image_url := None |}.
Proof.
  split.
  - exact (proj2 (proj2 (fetchLatestInvoices_missing_data (store keep_all empty_store)))
             keep_all empty_store eq_refl).
  - destruct (proj1 (proj2 (fetchLatestInvoices_missing_data (store keep_all orphaned)))
                [ RecentInvoice.mk 15795 "inv-9" "cus-9" "2023-03-01" ] []
                eq_refl ltac:(discriminate) eq_refl)
      as [out [Hout [_ Hnth]]].
    exists out. split; [exact Hout|].
    apply (Hnth 0%nat (RecentInvoice.mk 15795 "inv-9" "cus-9" "2023-03-01") eq_refl).
    intros c [].
Defined.

(** ** Invoice by id *)

Lemma unique_by_key {A K} (key : A -> K) (l : list A) (a b : A) :
  NoDup (map key l) -> In a l -> In b l -> key a = key b -> a = b.
Proof.
  induction l as [|x l IH]; cbn; intros Hnd Ha Hb Hk; [contradiction|].
  inversion Hnd as [|k ks Hnotin Hnd']; subst.
  destruct Ha as [-> | Ha], Hb as [-> | Hb]; auto.
  - exfalso. apply Hnotin. rewrite Hk. now apply in_map.
  - exfalso. apply Hnotin. rewrite <- Hk. now apply in_map.
Qed.

Lemma head_of_filter {A} (f : A -> bool) (l : list A) (a : A) :
  In a l -> f a = true ->
  exists b rest, filter f l = b :: rest /\ In b l /\ f b = true.
Proof.
  intros Ha Hf.
  destruct (filter f l) as [|b rest] eqn:E.
  - exfalso. assert (H : In a (filter f l)) by (apply filter_In; auto).
    rewrite E in H. exact H.
  - exists b, rest. split; [reflexivity|].
    assert (H : In b (filter f l)) by (rewrite E; now left).
    apply filter_In in H. exact H.
Qed.

Lemma filter_nothing {A} (f : A -> bool) (l : list A) :
  (forall a, In a l -> f a = false) -> filter f l = [].
Proof.
  induction l as [|a l IH]; cbn; intros H; [reflexivity|].
  rewrite (H a (or_introl eq_refl)). apply IH. intros b Hb. apply H. now right.
Qed.

(** C5.  For an id that an invoice of the store has, [fetchInvoiceById]
    returns the record [{id, customer_id, amount, status}] of an invoice
    with that id (of the invoice, ids being unique), its amount the
    stored cents divided by 100, a number and not a currency string.
    For an id no invoice has it returns [undefined] and does not
    throw. *)
Theorem fetchInvoiceById_by_store
    (or_filter : string -> Supabase.PostgrestError + (Invoice.t -> bool))
    (db : Database) (id : string) :
  (forall i, In i (db_invoices db) -> Invoice.id i = id ->
     exists stored,
       In stored (db_invoices db) /\ Invoice.id stored = id /\
       outcome (fetchInvoiceById (store or_filter db) id) = Normal (Some (invoiceForm stored)) /\
       (InvoiceForm.amount (invoiceForm stored) == Invoice.amount stored # 100)%Q /\
       (NoDup (map Invoice.id (db_invoices db)) -> stored = i))
  /\ ((forall i, In i (db_invoices db) -> Invoice.id i <> id) ->
     fetchInvoiceById (store or_filter db) id =
       ([Issued (Sql {| statement := InvoiceById; params := [id] |});
         Settled (Sql {| statement := InvoiceById; params := [id] |})],
        Normal None)).
Proof.
  split.
  - intros i Hi Hid.
    destruct (head_of_filter (fun i => (Invoice.id i =? id)%string) (db_invoices db) i Hi)
      as [stored [rest [Hf [Hin Hs]]]].
    { now apply String.eqb_eq. }
    apply String.eqb_eq in Hs.
    exists stored. split; [exact Hin|]. split; [exact Hs|]. split; [|split].
    + unfold fetchInvoiceById, fetchInvoiceById_try, await_sql. cbn. rewrite Hf. reflexivity.
    + unfold invoiceForm, Qeq. cbn. lia.
    + intros Hnd. apply (unique_by_key Invoice.id (db_invoices db)); auto. congruence.
  - intros Hnone.
    unfold fetchInvoiceById, fetchInvoiceById_try, await_sql. cbn.
    rewrite filter_nothing; [reflexivity|].
    intros i Hi. apply String.eqb_neq. now apply Hnone.
Qed.

Lemma fetchInvoiceById_by_store_witness :
  (exists stored,
     In stored (db_invoices ledger) /\ Invoice.id stored = "inv-1" /\
     outcome (fetchInvoiceById (store keep_all ledger) "inv-1")
       = Normal (Some (invoiceForm stored)) /\
     (InvoiceForm.amount (invoiceForm stored) == Invoice.amount stored # 100)%Q /\
     (NoDup (map Invoice.id (db_invoices ledger)) ->
      stored = Invoice.mk "inv-1" "cus-1" 100000 "paid" "2023-01-05"))
  /\ outcome (fetchInvoiceById (store keep_all ledger) "inv-404") = Normal None.
Proof.
  split.
  - exact (proj1 (fetchInvoiceById_by_store keep_all ledger "inv-1")
             (Invoice.mk "inv-1" "cus-1" 100000 "paid" "2023-01-05")
             (or_introl eq_refl) eq_refl).
  - refine (f_equal snd
              (proj2 (fetchInvoiceById_by_store keep_all ledger "inv-404") _)).
    intros i [<- | [<- | []]]; discriminate.
Defined.

(** ** Page count *)

Lemma ceil_sixth (n : Z) :
  6 * (Math_ceil (Number n / Number ITEMS_PER_PAGE) - 1) < n
    <= 6 * Math_ceil (Number n / Number ITEMS_PER_PAGE).
Proof.
  unfold Math_ceil, Number, ITEMS_PER_PAGE.
  set (x := (inject_Z n / inject_Z 6)%Q).
  pose proof (Qle_ceiling x) as Hle.
  pose proof (Qceiling_lt x) as Hlt.
  set (p := Qceiling x) in *.
  unfold Qle, Qlt, x in Hle, Hlt. cbn in Hle, Hlt. lia.
Qed.

Lemma store_count_matching (db : Database) (query : string) :
  store_count db (countParams query) =
    Fulfilled {| rows := [ {| CountRow.count := matching_rows db query |} ] |}.
Proof.
  unfold store_count, countParams, matching_rows, length_.
  do 6 f_equal.
  apply filter_ext. intros [i c]. reflexivity.
Qed.

(** C6.  [fetchInvoicesPages] returns the least number of pages of 6
    that hold the matching rows, the ceiling of their number divided
    by 6: 0 pages for 0 rows. *)
Theorem fetchInvoicesPages_page_count
    (or_filter : string -> Supabase.PostgrestError + (Invoice.t -> bool))
    (db : Database) (query : string) :
  exists pages,
    outcome (fetchInvoicesPages (store or_filter db) query) = Normal pages
    /\ 6 * (pages - 1) < matching_rows db query <= 6 * pages
    /\ pages = (matching_rows db query + 5) / 6
    /\ (matching_rows db query = 0 <-> pages = 0).
Proof.
  exists (Math_ceil (Number (matching_rows db query) / Number ITEMS_PER_PAGE)).
  pose proof (ceil_sixth (matching_rows db query)) as H.
  assert (0 <= matching_rows db query) by apply Nat2Z.is_nonneg.
  split.
  { unfold fetchInvoicesPages, fetchInvoicesPages_try, await_sql.
    cbn [sql_count store]. rewrite store_count_matching. reflexivity. }
  split; [exact H|].
  split.
  - set (pages := Math_ceil _) in *.
    apply Z.div_unique with (r := matching_rows db query + 5 - 6 * pages); lia.
  - lia.
Qed.

(** ** Filtered invoices without a filter *)

Section InsertionSort.

Context {A : Type} (before : A -> A -> bool).

Hypothesis before_total : forall a b, before a b = false -> before b a = true.

Let R (a b : A) : Prop := before a b = true.

Lemma insert_by_perm (x : A) (l : list A) : Permutation (insert_by before x l) (x :: l).
Proof.
  induction l as [|y l IH]; cbn; [reflexivity|].
  destruct (before x y); [reflexivity|].
  rewrite IH. apply perm_swap.
Qed.

Lemma sort_by_perm (l : list A) : Permutation (sort_by before l) l.
Proof.
  induction l as [|x l IH]; cbn; [reflexivity|].
  rewrite insert_by_perm. now constructor.
Qed.

Lemma insert_by_hd (x a : A) (l : list A) :
  R a x -> HdRel R a l -> HdRel R a (insert_by before x l).
Proof.
  intros Hax Hl. destruct l as [|y l]; cbn; [now constructor|].
  destruct (before x y); constructor; auto.
  now inversion Hl.
Qed.

Lemma insert_by_sorted (x : A) (l : list A) :
  Sorted R l -> Sorted R (insert_by before x l).
Proof.
  induction 1 as [|y l Hs IH Hhd]; cbn.
  - repeat constructor.
  - destruct (before x y) eqn:E.
    + constructor; [now constructor | now constructor].
    + constructor; [exact IH|].
      apply insert_by_hd; [|exact Hhd]. now apply before_total.
Qed.

Lemma sort_by_sorted (l : list A) : Sorted R (sort_by before l).
Proof.
  induction l as [|x l IH]; cbn; [constructor|]. now apply insert_by_sorted.
Qed.

End InsertionSort.

Lemma Sorted_map {A C} (R : A -> A -> Prop) (S : C -> C -> Prop) (f : A -> C) (l : list A) :
  (forall a b, R a b -> S (f a) (f b)) -> Sorted R l -> Sorted S (map f l).
Proof.
  intros H. induction 1 as [|a l Hs IH Hhd]; cbn; constructor; auto.
  destruct Hhd; cbn; constructor; auto.
Qed.

Lemma unfiltered_fetch_latest_first (db : Database) : latest_first (unfiltered_fetch db).
Proof.
  unfold latest_first, unfiltered_fetch.
  apply Sorted_map with
    (R := fun a b => (Invoice.date b <=? Invoice.date a)%string = true).
  - auto.
  - apply (sort_by_sorted (fun a b => (Invoice.date b <=? Invoice.date a)%string)).
    intros a b H.
    destruct (String.leb_total (Invoice.date a) (Invoice.date b)) as [H' | H'];
      [exact H' | congruence].
Qed.

Lemma page_rows {A} (l : list A) (offset k : nat) :
  nth_error (firstn 6 (skipn offset l)) k =
  if (k <? 6)%nat then nth_error l (offset + k) else None.
Proof.
  destruct (k <? 6)%nat eqn:E.
  - apply Nat.ltb_lt in E. rewrite nth_error_firstn.
    apply Nat.ltb_lt in E. rewrite E. apply nth_error_skipn.
  - apply Nat.ltb_ge in E. rewrite nth_error_firstn.
    destruct (k <? 6)%nat eqn:E'; [apply Nat.ltb_lt in E'; lia | reflexivity].
Qed.

(** The rows the store delivers for the request of an empty query. *)
Lemma store_invoices_table_unfiltered
    (or_filter : string -> Supabase.PostgrestError + (Invoice.t -> bool))
    (db : Database) (page : Z) :
  1 <= page ->
  store_invoices_table or_filter db (invoicesQuery "" page) =
    success (firstn 6 (skipn (Z.to_nat ((page - 1) * 6)) (unfiltered_fetch db))).
Proof.
  intros Hpage.
  unfold store_invoices_table, invoicesQuery, filterCondition, offset_ok, ITEMS_PER_PAGE.
  cbn [String.eqb q_range q_or range order select from negb].
  replace (0 <=? (page - 1) * 6) with true by (symmetry; apply Z.leb_le; lia).
  cbn [negb]. unfold window, ordered.
  cbn [q_range q_limit q_order range order select from date_before].
  rewrite String.eqb_refl.
  replace ((page - 1) * 6 + 6 - 1 - (page - 1) * 6 + 1) with 6 by lia.
  unfold unfiltered_fetch. rewrite skipn_map, firstn_map. reflexivity.
Qed.

(** C7.  For a page number from 1 on, [fetchFilteredInvoices] with the
    empty query string sends a request without filter and returns the
    rows of the unfiltered fetch (all invoices, latest first) at the
    positions [(page-1)*6] to [(page-1)*6 + 5]: the page of 6 rows at
    offset [(page-1)*6], in the same order. *)
Theorem fetchFilteredInvoices_empty_query
    (or_filter : string -> Supabase.PostgrestError + (Invoice.t -> bool))
    (db : Database) (page : Z) :
  1 <= page ->
  q_or (invoicesQuery "" page) = None
  /\ latest_first (unfiltered_fetch db)
  /\ Permutation (unfiltered_fetch db) (map (with_customer db) (db_invoices db))
  /\ exists rows,
       outcome (fetchFilteredInvoices (store or_filter db) "" page) = Normal (Some rows)
       /\ rows = firstn 6 (skipn (Z.to_nat ((page - 1) * 6)) (unfiltered_fetch db))
       /\ forall k,
            nth_error rows k =
            if (k <? 6)%nat
            then nth_error (unfiltered_fetch db) (Z.to_nat ((page - 1) * 6) + k)
            else None.
Proof.
  intros Hpage.
  split; [reflexivity|].
  split; [apply unfiltered_fetch_latest_first|].
  split; [apply Permutation_map, sort_by_perm|].
  eexists. split; [|split; [reflexivity|]].
  - unfold fetchFilteredInvoices, fetchFilteredInvoices_try, await_rest.
    cbn [rest_invoices_table store].
    rewrite (store_invoices_table_unfiltered or_filter db page Hpage). reflexivity.
  - intros k. apply page_rows.
Qed.

Lemma fetchFilteredInvoices_empty_query_witness :
  1 <= 1
  /\ exists rows,
       outcome (fetchFilteredInvoices (store keep_all ledger) "" 1) = Normal (Some rows)
       /\ rows = firstn 6 (skipn (Z.to_nat ((1 - 1) * 6)) (unfiltered_fetch ledger)).
Proof.
  split; [lia|].
  destruct (proj2 (proj2 (proj2
              (fetchFilteredInvoices_empty_query keep_all ledger 1 ltac:(lia)))))
    as [rows [Hrun [Hrows _]]].
  exists rows. split; [exact Hrun | exact Hrows].
Defined.

(** * Further properties of the query layer *)

(** ** Requests and console lines of a call *)

Ltac settle_trace :=
  cbn;
  repeat match goal with
         | |- _ /\ _ => split
         | |- one_at_a_time _ => repeat constructor
         | |- (_ <= _)%nat => cbn; lia
         | |- NoDup _ => repeat (constructor; [cbn; intuition discriminate|]); constructor
         | |- _ = _ => reflexivity
         end.

(** X1.  A call never has two requests in flight and never asks twice:
    every request is settled before anything else happens, a call
    issues at most three requests, all different, and the first is the
    request of its first [await]. *)
Theorem requests_one_at_a_time (B : Backend) (c : Call) :
  one_at_a_time (events (call B c))
  /\ (List.length (issued (events (call B c))) <= 3)%nat
  /\ NoDup (issued (events (call B c)))
  /\ hd_error (issued (events (call B c))) = Some (first_request c).
Proof.
  destruct c; cbn [call first_request].
  - unfold fetchRevenue, fetchRevenue_try, await_rest.
    destruct (rest_revenue B revenueQuery) as [[[d|] [e|]] | x]; settle_trace.
  - unfold fetchLatestInvoices, fetchLatestInvoices_try, await_rest.
    destruct (rest_invoices_recent B latestInvoicesQuery) as [[[[|i data]|] [e|]] | x];
      try solve [settle_trace].
    cbn. destruct (rest_customers B _) as [[[cs|] [e|]] | x]; settle_trace.
  - unfold fetchCardData, fetchCardData_try, await_rest.
    destruct (rest_invoices_all B allInvoicesQuery) as [[d1 [e1|]] | x1];
      try solve [settle_trace];
      (destruct (rest_customers B allCustomersQuery) as [[d2 [e2|]] | x2];
       try solve [settle_trace];
       destruct (rest_invoices_status B invoiceStatusQuery) as [[d3 [e3|]] | x3];
       settle_trace).
  - unfold fetchFilteredInvoices, fetchFilteredInvoices_try, await_rest.
    destruct (rest_invoices_table B _) as [[d [e|]] | x]; settle_trace.
  - unfold fetchInvoicesPages, fetchInvoicesPages_try, await_sql.
    destruct (sql_count B _) as [[[|r0 rest]] | x]; settle_trace.
  - unfold fetchInvoiceById, fetchInvoiceById_try, await_sql.
    destruct (sql_invoice_by_id B _) as [[rs] | x]; settle_trace.
  - unfold fetchCustomers, fetchCustomers_try, await_sql.
    destruct (sql_customers B _) as [[rs] | x]; settle_trace.
  - unfold fetchFilteredCustomers, fetchFilteredCustomers_try, await_sql.
    destruct (sql_customers_table B _) as [[rs] | x]; settle_trace.
Qed.

Ltac settle_lines :=
  cbn;
  repeat match goal with
         | |- _ /\ _ => split
         | |- forall _, _ => intro
         | |- ~ _ => intro
         | H : _ \/ _ |- _ => destruct H
         | H : False |- _ => destruct H
         | H : (_, _) = (_, _) |- _ => discriminate H
         | H : Normal _ = Throw _ |- _ => discriminate H
         | H : Throw _ = Normal _ |- _ => discriminate H
         | H : @nil _ <> @nil _ |- _ => destruct (H eq_refl)
         | |- _ = _ => reflexivity
         end.

Lemma try_block_lines (B : Backend) (c : Call) :
  (forall p, ~ In ("Database Error:", p) (error_lines (events (try_block B c))))
  /\ (forall v, outcome (try_block B c) = Normal v ->
      error_lines (events (try_block B c)) = [])
  /\ (log_lines (events (try_block B c)) <> [] ->
      exists query currentPage,
        function_name c = function_name (FetchFilteredInvoices query currentPage) /\
        exists v, outcome (try_block B c) = Normal v).
Proof.
  destruct c; cbn [try_block Returned].
  - unfold fetchRevenue_try, await_rest.
    destruct (rest_revenue B revenueQuery) as [[[d|] [e|]] | x]; settle_lines.
  - unfold fetchLatestInvoices_try, await_rest.
    destruct (rest_invoices_recent B latestInvoicesQuery) as [[[[|i data]|] [e|]] | x];
      try solve [settle_lines].
    cbn. destruct (rest_customers B _) as [[[cs|] [e|]] | x]; settle_lines.
  - unfold fetchCardData_try, await_rest.
    destruct (rest_invoices_all B allInvoicesQuery) as [[d1 [e1|]] | x1];
      try solve [settle_lines];
      (destruct (rest_customers B allCustomersQuery) as [[d2 [e2|]] | x2];
       try solve [settle_lines];
       destruct (rest_invoices_status B invoiceStatusQuery) as [[d3 [e3|]] | x3];
       settle_lines).
  - unfold fetchFilteredInvoices_try, await_rest.
    destruct (rest_invoices_table B _) as [[d [e|]] | x]; settle_lines.
    exists query, currentPage. split; [reflexivity|]. eexists. reflexivity.
  - unfold fetchInvoicesPages_try, await_sql.
    destruct (sql_count B _) as [[[|r0 rest]] | x]; settle_lines.
  - unfold fetchInvoiceById_try, await_sql.
    destruct (sql_invoice_by_id B _) as [[rs] | x]; settle_lines.
  - unfold fetchCustomers_try, await_sql.
    destruct (sql_customers B _) as [[rs] | x]; settle_lines.
  - unfold fetchFilteredCustomers_try, await_sql.
    destruct (sql_customers_table B _) as [[rs] | x]; settle_lines.
Qed.

Lemma log_lines_app (tr1 tr2 : list Event) :
  log_lines (tr1 ++ tr2) = (log_lines tr1 ++ log_lines tr2)%list.
Proof. apply flat_map_app. Qed.

(** X2.  What a call leaves on the console tells how it ended.  A call
    that returns has written no [console.error] line.  A call that
    throws has written one line labelled ["Database Error:"], as the
    last thing it did.  Only a [fetchFilteredInvoices] that returns
    writes with [console.log]. *)
Theorem console_tells_outcome (B : Backend) (c : Call) :
  match outcome (call B c) with
  | Normal _ => error_lines (events (call B c)) = []
  | Throw _ =>
    exists tr cause,
      events (call B c) = (tr ++ [ConsoleError "Database Error:" (PThrown cause)])%list /\
      forall p, ~ In ("Database Error:", p) (error_lines tr)
  end
  /\ (log_lines (events (call B c)) <> [] ->
      (exists query currentPage,
         function_name c = function_name (FetchFilteredInvoices query currentPage)) /\
      exists v, outcome (call B c) = Normal v).
Proof.
  destruct (try_block_lines B c) as [Hnone [Hnormal Hlog]].
  rewrite (call_catches B c).
  destruct (try_block B c) as [tr [v | cause]]; cbn in *.
  - split; [now apply (Hnormal v)|].
    intros H. destruct (Hlog H) as [q [p [Hc _]]].
    split; [now exists q, p | now exists v].
  - split; [exists tr, cause; split; [reflexivity | exact Hnone]|].
    rewrite log_lines_app, app_nil_r. intros H.
    destruct (Hlog H) as [_ [_ [_ [v Hv]]]]. discriminate Hv.
Qed.

(** ** The invoice list and its pages *)

(** X3.  [fetchFilteredInvoices] by what its request resolves to.  A
    structured error is written to the console twice over, the error
    itself under ["Supabase Error:"] and then, under ["Database
    Error:"], the generic [Error] that the [try] block threw and the
    [catch] clause caught; the caller gets the generic [Error].
    Without error the data is logged and returned as it is, [null]
    included: absent data is not a failure here. *)
Theorem fetchFilteredInvoices_by_reply (B : Backend) (query : string) (currentPage : Z)
    (r : Supabase.PostgrestResponse (list InvoicesTable.t)) :
  rest_invoices_table B (invoicesQuery query currentPage) = Fulfilled r ->
  (forall err, Supabase.error r = Some err ->
     fetchFilteredInvoices B query currentPage =
       ([Issued (Rest (invoicesQuery query currentPage));
         Settled (Rest (invoicesQuery query currentPage));
         ConsoleError "Supabase Error:" (PError err);
         ConsoleError "Database Error:" (PThrown (JsError "Failed to fetch invoices."))],
        Throw (JsError "Failed to fetch invoices.")))
  /\ (Supabase.error r = None ->
     fetchFilteredInvoices B query currentPage =
       ([Issued (Rest (invoicesQuery query currentPage));
         Settled (Rest (invoicesQuery query currentPage));
         ConsoleLog "Fetched Invoices:" (PInvoices (Supabase.data r))],
        Normal (Supabase.data r))).
Proof.
  intros H. unfold fetchFilteredInvoices, fetchFilteredInvoices_try, await_rest.
  rewrite H. destruct r as [d e]; cbn.
  split; [intros err -> | intros ->]; reflexivity.
Qed.

Lemma fetchFilteredInvoices_by_reply_witness :
  fetchFilteredInvoices (erroring "permission denied" ledger) "ada" 1 =
    ([Issued (Rest (invoicesQuery "ada" 1)); Settled (Rest (invoicesQuery "ada" 1));
      ConsoleError "Supabase Error:" (PError {| Supabase.message := "permission denied" |});
      ConsoleError "Database Error:" (PThrown (JsError "Failed to fetch invoices."))],
     Throw (JsError "Failed to fetch invoices."))
  /\ fetchFilteredInvoices (without_data "invoices" ledger) "" 1 =
    ([Issued (Rest (invoicesQuery "" 1)); Settled (Rest (invoicesQuery "" 1));
      ConsoleLog "Fetched Invoices:" (PInvoices None)],
     Normal None).
Proof.
  split.
  - exact (proj1 (fetchFilteredInvoices_by_reply (erroring "permission denied" ledger)
                    "ada" 1 _ eq_refl) _ eq_refl).
  - exact (proj2 (fetchFilteredInvoices_by_reply (without_data "invoices" ledger)
                    "" 1 _ eq_refl) eq_refl).
Defined.

Lemma firstn_then_next {A} (a b : nat) (l : list A) :
  (firstn a l ++ firstn b (skipn a l))%list = firstn (a + b) l.
Proof.
  revert l. induction a as [|a IH]; intros l; [reflexivity|].
  destruct l as [|x l]; cbn.
  - now rewrite firstn_nil.
  - now rewrite IH.
Qed.

Lemma pages_concat {A} (l : list A) (n : nat) :
  List.concat (map (fun p => firstn 6 (skipn (6 * (p - 1)) l)) (seq 1 n)) = firstn (6 * n) l.
Proof.
  induction n as [|n IH]; [reflexivity|].
  rewrite seq_S, map_app, List.concat_app, IH. cbn [map List.concat].
  rewrite app_nil_r.
  replace (6 * (1 + n - 1))%nat with (6 * n)%nat by lia.
  rewrite firstn_then_next. f_equal. lia.
Qed.

(** A page of the empty query on a store. *)
Lemma store_page
    (or_filter : string -> Supabase.PostgrestError + (Invoice.t -> bool))
    (db : Database) (page : Z) :
  1 <= page ->
  outcome (fetchFilteredInvoices (store or_filter db) "" page) =
    Normal (Some (firstn 6 (skipn (Z.to_nat ((page - 1) * 6)) (unfiltered_fetch db)))).
Proof.
  intros Hpage. unfold fetchFilteredInvoices, fetchFilteredInvoices_try, await_rest.
  cbn [rest_invoices_table store].
  rewrite (store_invoices_table_unfiltered or_filter db page Hpage). reflexivity.
Qed.

Lemma store_pages
    (or_filter : string -> Supabase.PostgrestError + (Invoice.t -> bool))
    (db : Database) (n : nat) :
  List.concat
    (map (fun p =>
            returned_rows (outcome (fetchFilteredInvoices (store or_filter db) "" (Z.of_nat p))))
         (seq 1 n))
  = firstn (6 * n) (unfiltered_fetch db).
Proof.
  rewrite <- pages_concat. f_equal.
  apply map_ext_in. intros p Hp. apply in_seq in Hp.
  rewrite store_page by lia. cbn [returned_rows].
  do 2 f_equal. lia.
Qed.

Lemma unfiltered_fetch_length (db : Database) :
  List.length (unfiltered_fetch db) = List.length (db_invoices db).
Proof.
  unfold unfiltered_fetch. rewrite length_map.
  apply Permutation_length, sort_by_perm.
Qed.

(** X4.  The pages of the empty query tile the invoice list: pages 1
    to [n], one after the other, are the first [6 * n] rows of the
    unfiltered list, no row twice and none left out between two pages.
    A page past the end of the list is an empty array, not a failure. *)
Theorem pages_tile_the_list
    (or_filter : string -> Supabase.PostgrestError + (Invoice.t -> bool))
    (db : Database) (n : nat) :
  List.concat
    (map (fun p =>
            returned_rows (outcome (fetchFilteredInvoices (store or_filter db) "" (Z.of_nat p))))
         (seq 1 n))
  = firstn (6 * n) (unfiltered_fetch db)
  /\ (forall page,
       1 <= page ->
       Z.of_nat (List.length (db_invoices db)) <= 6 * (page - 1) ->
       outcome (fetchFilteredInvoices (store or_filter db) "" page) = Normal (Some [])).
Proof.
  split; [apply store_pages|].
  intros page Hpage Hpast. rewrite store_page by exact Hpage.
  rewrite skipn_all2; [reflexivity|].
  rewrite unfiltered_fetch_length. lia.
Qed.

Lemma pages_tile_the_list_witness :
  1 <= 2
  /\ Z.of_nat (List.length (db_invoices ledger)) <= 6 * (2 - 1)
  /\ outcome (fetchFilteredInvoices (store keep_all ledger) "" 2) = Normal (Some []).
Proof.
  split; [lia|]. split; [cbn; lia|].
  exact (proj2 (pages_tile_the_list keep_all ledger 0) 2 ltac:(lia) ltac:(cbn; lia)).
Defined.

(** ** Page count against pages *)

Lemma like_percent (text : list ascii) : like ["%"%char] text = true.
Proof. induction text as [|c text IH]; [reflexivity | exact IH]. Qed.

Lemma ilike_anything (text : string) : ilike text "%%" = true.
Proof.
  unfold ilike. cbn [list_ascii_of_string].
  destruct (list_ascii_of_string text) as [|c t]; [reflexivity|].
  change (like ["%"%char] (c :: t) || like ["%"%char; "%"%char] t = true).
  now rewrite like_percent.
Qed.

Lemma matches_empty_query (ic : Invoice.t * Customer.t) : matches "" ic = true.
Proof.
  unfold matches. change ("%" ++ "" ++ "%") with "%%".
  now rewrite ilike_anything.
Qed.

Lemma filter_everything {A} (f : A -> bool) (l : list A) :
  (forall a, f a = true) -> filter f l = l.
Proof.
  intros H. induction l as [|a l IH]; cbn; [reflexivity|]. now rewrite H, IH.
Qed.

Lemma joined_length (db : Database) :
  List.length (joined db) =
  list_sum (map (fun i => List.length (customers_of db i)) (db_invoices db)).
Proof.
  unfold joined. induction (db_invoices db) as [|i l IH]; [reflexivity|].
  cbn [flat_map map]. rewrite length_app, length_map, IH. reflexivity.
Qed.

Lemma list_sum_constant {A} (f : A -> nat) (k : nat) (l : list A) :
  (forall a, In a l -> f a = k) -> list_sum (map f l) = (k * List.length l)%nat.
Proof.
  induction l as [|a l IH]; intros H; [cbn; lia|].
  change (list_sum (map f (a :: l))) with (f a + list_sum (map f l))%nat.
  rewrite (H a (or_introl eq_refl)), IH; [cbn [List.length]; lia|].
  intros b Hb. apply H. now right.
Qed.

Lemma matching_rows_empty_query (db : Database) :
  matching_rows db "" =
  Z.of_nat (list_sum (map (fun i => List.length (customers_of db i)) (db_invoices db))).
Proof.
  unfold matching_rows.
  rewrite (filter_everything (matches "")) by apply matches_empty_query.
  now rewrite joined_length.
Qed.

Lemma store_page_count
    (or_filter : string -> Supabase.PostgrestError + (Invoice.t -> bool))
    (db : Database) (query : string) :
  outcome (fetchInvoicesPages (store or_filter db) query) =
    Normal (Math_ceil (Number (matching_rows db query) / Number ITEMS_PER_PAGE)).
Proof.
  unfold fetchInvoicesPages, fetchInvoicesPages_try, await_sql.
  cbn [sql_count store]. rewrite store_count_matching. reflexivity.
Qed.

(** X5.  On a store in which every invoice has its one customer, the
    page count of the empty query is the number of pages of the invoice
    list: it is not negative, the pages 1 to the page count are the
    whole unfiltered list, and the last of them is not empty. *)
Theorem page_count_covers_the_list
    (or_filter : string -> Supabase.PostgrestError + (Invoice.t -> bool))
    (db : Database) :
  referential db ->
  exists totalPages,
    outcome (fetchInvoicesPages (store or_filter db) "") = Normal totalPages
    /\ 0 <= totalPages
    /\ List.concat
         (map (fun p =>
                 returned_rows
                   (outcome (fetchFilteredInvoices (store or_filter db) "" (Z.of_nat p))))
              (seq 1 (Z.to_nat totalPages)))
       = unfiltered_fetch db
    /\ (1 <= totalPages ->
        returned_rows (outcome (fetchFilteredInvoices (store or_filter db) "" totalPages))
        <> []).
Proof.
  intros Href.
  assert (Hn : matching_rows db "" = Z.of_nat (List.length (db_invoices db))).
  { rewrite matching_rows_empty_query.
    rewrite (list_sum_constant _ 1%nat) by exact Href. f_equal. lia. }
  pose proof (ceil_sixth (matching_rows db "")) as Hceil.
  exists (Math_ceil (Number (matching_rows db "") / Number ITEMS_PER_PAGE)).
  set (totalPages := Math_ceil _) in *.
  split; [apply store_page_count|].
  split; [lia|]. split.
  - rewrite store_pages. apply firstn_all2.
    rewrite unfiltered_fetch_length. lia.
  - intros Hone. rewrite store_page by exact Hone. cbn [returned_rows].
    intros Hnil. apply (f_equal (@List.length _)) in Hnil.
    rewrite length_firstn, length_skipn, unfiltered_fetch_length in Hnil.
    change (List.length (@nil InvoicesTable.t)) with 0%nat in Hnil. lia.
Qed.

Lemma page_count_covers_the_list_witness :
  referential ledger
  /\ exists totalPages,
       outcome (fetchInvoicesPages (store keep_all ledger) "") = Normal totalPages
       /\ 0 <= totalPages
       /\ List.concat
            (map (fun p =>
                    returned_rows
                      (outcome (fetchFilteredInvoices (store keep_all ledger) ""
                                  (Z.of_nat p))))
                 (seq 1 (Z.to_nat totalPages)))
          = unfiltered_fetch ledger
       /\ (1 <= totalPages ->
           returned_rows (outcome (fetchFilteredInvoices (store keep_all ledger) ""
                                     totalPages))
           <> []).
Proof.
  assert (H : referential ledger).
  { intros i [<- | [<- | []]]; reflexivity. }
  split; [exact H|].
  exact (page_count_covers_the_list keep_all ledger H).
Defined.

(** X6.  The count joins invoices to customers, the list does not: on
    a store in which no invoice has a customer, the page count is 0 for
    every query, while the first page of the empty query holds the
    first six invoices. *)
Theorem page_count_leaves_out_orphans
    (or_filter : string -> Supabase.PostgrestError + (Invoice.t -> bool))
    (db : Database) (query : string) :
  (forall i, In i (db_invoices db) -> customers_of db i = []) ->
  outcome (fetchInvoicesPages (store or_filter db) query) = Normal 0
  /\ outcome (fetchFilteredInvoices (store or_filter db) "" 1)
     = Normal (Some (firstn 6 (unfiltered_fetch db)))
  /\ List.length (firstn 6 (unfiltered_fetch db))
     = Nat.min 6 (List.length (db_invoices db)).
Proof.
  intros Horphan.
  assert (Hj : joined db = []).
  { unfold joined. apply length_zero_iff_nil. fold (joined db).
    rewrite joined_length, (list_sum_constant _ 0%nat); [reflexivity|].
    intros i Hi. now rewrite Horphan. }
  split; [|split].
  - rewrite store_page_count. unfold matching_rows. rewrite Hj. reflexivity.
  - rewrite store_page by lia. reflexivity.
  - now rewrite length_firstn, unfiltered_fetch_length.
Qed.

Lemma page_count_leaves_out_orphans_witness :
  (forall i, In i (db_invoices orphaned) -> customers_of orphaned i = [])
  /\ outcome (fetchInvoicesPages (store keep_all orphaned) "") = Normal 0
  /\ List.length (firstn 6 (unfiltered_fetch orphaned)) = 1%nat.
Proof.
  assert (H : forall i, In i (db_invoices orphaned) -> customers_of orphaned i = []).
  { intros i [<- | []]. reflexivity. }
  split; [exact H|].
  split.
  - exact (proj1 (page_count_leaves_out_orphans keep_all orphaned "" H)).
  - exact (proj2 (proj2 (page_count_leaves_out_orphans keep_all orphaned "" H))).
Defined.

(** ** The in-memory join of the latest invoices *)

Lemma find_unique {A} (key : A -> string) (l : list A) (c : A) :
  NoDup (map key l) -> In c l ->
  find (fun a => (key a =? key c)%string) l = Some c.
Proof.
  induction l as [|a l IH]; cbn; intros Hnd Hin; [contradiction|].
  inversion Hnd as [|k ks Hnotin Hnd']; subst.
  destruct Hin as [-> | Hin].
  - now rewrite String.eqb_refl.
  - destruct (key a =? key c)%string eqn:E.
    + apply String.eqb_eq in E. exfalso. apply Hnotin. rewrite E. now apply in_map.
    + now apply IH.
Qed.

(** X7.  The join of [fetchLatestInvoices].  With invoice rows and a
    customer list, the call makes two requests, the second for the
    customer ids of the rows, one id per row.  It returns one record per
    row, in the order of the rows, with the row's id and its amount
    formatted; a row whose customer id is the id of a fetched customer
    (ids being unique among them) carries that customer's name, email
    and image. *)
Theorem fetchLatestInvoices_join (B : Backend)
    (data : list RecentInvoice.t) (customers : list Customer.t) :
  rest_invoices_recent B latestInvoicesQuery
    = Fulfilled {| Supabase.data := Some data; Supabase.error := None |} ->
  data <> [] ->
  rest_customers B (customersQuery (map RecentInvoice.customer_id data))
    = Fulfilled {| Supabase.data := Some customers; Supabase.error := None |} ->
  exists out,
    fetchLatestInvoices B =
      ([Issued (Rest latestInvoicesQuery); Settled (Rest latestInvoicesQuery);
        Issued (Rest (customersQuery (map RecentInvoice.customer_id data)));
        Settled (Rest (customersQuery (map RecentInvoice.customer_id data)))],
       Normal out)
    /\ map LatestInvoice.id out = map RecentInvoice.id data
    /\ map LatestInvoice.amount out
       = map (fun invoice => formatCurrency (RecentInvoice.amount invoice)) data
    /\ (NoDup (map Customer.id customers) ->
        forall k invoice c,
          nth_error data k = Some invoice ->
          In c customers ->
          Customer.id c = RecentInvoice.customer_id invoice ->
          nth_error out k =
            Some {| LatestInvoice.id := RecentInvoice.id invoice;
                    LatestInvoice.amount := formatCurrency (RecentInvoice.amount invoice);
                    LatestInvoice.name := Some (Customer.name c);
                    LatestInvoice.email := Some (Customer.email c);
                    LatestInvoice.image_url := Some (Customer.image_url c) |}).
Proof.
  intros H Hne Hc.
  exists (map (latestInvoice customers) data).
  split; [|split; [|split]].
  - unfold fetchLatestInvoices, fetchLatestInvoices_try, await_rest.
    rewrite H. cbn. destruct data as [|i l]; [contradiction|].
    rewrite Hc. reflexivity.
  - rewrite map_map. reflexivity.
  - rewrite map_map. reflexivity.
  - intros Hnd k invoice c Hk Hin Hid.
    rewrite nth_error_map, Hk. cbn [option_map]. unfold latestInvoice.
    rewrite <- Hid, (find_unique Customer.id customers c Hnd Hin). reflexivity.
Qed.

Lemma fetchLatestInvoices_join_witness :
  exists out,
    outcome (fetchLatestInvoices (store keep_all ledger)) = Normal out
    /\ map LatestInvoice.id out = ["inv-2"; "inv-1"]
    /\ nth_error out 0 =
         Some {| LatestInvoice.id := "inv-2";
                 LatestInvoice.amount := formatCurrency 50000;
                 LatestInvoice.name := Some "Bo Diddley";
                 LatestInvoice.email := Some "bo@example.com";
                 LatestInvoice.image_url := Some "/customers/bo.png" |}.
Proof.
  destruct (fetchLatestInvoices_join (store keep_all ledger)
              [ RecentInvoice.mk 50000 "inv-2" "cus-2" "2023-02-01";
                RecentInvoice.mk 100000 "inv-1" "cus-1" "2023-01-05" ]
              (db_customers ledger)
              eq_refl ltac:(discriminate) eq_refl)
    as [out [Hrun [Hids [_ Hjoin]]]].
  exists out. split; [exact (f_equal snd Hrun)|]. split; [exact Hids|].
  apply (Hjoin
           ltac:(repeat (constructor; [cbn; intuition discriminate|]); constructor)
           0%nat (RecentInvoice.mk 50000 "inv-2" "cus-2" "2023-02-01")
           (Customer.mk "cus-2" "Bo Diddley" "bo@example.com" "/customers/bo.png")
           eq_refl (or_intror (or_introl eq_refl)) eq_refl).
Defined.

(** X8.  A customer that is missing from the follow-up fetch is no
    failure, a follow-up fetch that fails is: when the customers
    request reports an error, is rejected, or resolves without data
    (the join then reads [find] of [null]), the invoices already
    fetched are dropped and the call throws its generic [Error], the
    cause on the console. *)
Theorem fetchLatestInvoices_customers_fail (B : Backend) (data : list RecentInvoice.t) :
  rest_invoices_recent B latestInvoicesQuery
    = Fulfilled {| Supabase.data := Some data; Supabase.error := None |} ->
  data <> [] ->
  forall cause,
    match rest_customers B (customersQuery (map RecentInvoice.customer_id data)) with
    | Rejected x => cause = x
    | Fulfilled {| Supabase.error := Some customerError |} =>
      cause = JsError ("Failed to fetch customers: " ++ Supabase.message customerError)
    | Fulfilled {| Supabase.data := None; Supabase.error := None |} =>
      cause = JsTypeError "Cannot read properties of null (reading 'find')"
    | Fulfilled {| Supabase.data := Some _; Supabase.error := None |} => False
    end ->
    fetchLatestInvoices B =
      ([Issued (Rest latestInvoicesQuery); Settled (Rest latestInvoicesQuery);
        Issued (Rest (customersQuery (map RecentInvoice.customer_id data)));
        Settled (Rest (customersQuery (map RecentInvoice.customer_id data)));
        ConsoleError "Database Error:" (PThrown cause)],
       Throw (JsError "Failed to fetch the latest invoices.")).
Proof.
  intros H Hne cause Hcause.
  unfold fetchLatestInvoices, fetchLatestInvoices_try, await_rest.
  rewrite H. cbn. destruct data as [|i l]; [contradiction|].
  destruct (rest_customers B _) as [[[cs|] [e|]] | x]; cbn; subst;
    try reflexivity; contradiction.
Qed.

Lemma fetchLatestInvoices_customers_fail_witness :
  fetchLatestInvoices (without_data "customers" ledger) =
    ([Issued (Rest latestInvoicesQuery); Settled (Rest latestInvoicesQuery);
      Issued (Rest (customersQuery ["cus-2"; "cus-1"]));
      Settled (Rest (customersQuery ["cus-2"; "cus-1"]));
      ConsoleError "Database Error:"
        (PThrown (JsTypeError "Cannot read properties of null (reading 'find')"))],
     Throw (JsError "Failed to fetch the latest invoices.")).
Proof.
  exact (fetchLatestInvoices_customers_fail (without_data "customers" ledger)
           [ RecentInvoice.mk 50000 "inv-2" "cus-2" "2023-02-01";
             RecentInvoice.mk 100000 "inv-1" "cus-1" "2023-01-05" ]
           eq_refl ltac:(discriminate)
           (JsTypeError "Cannot read properties of null (reading 'find')") eq_refl).
Defined.

Lemma find_in_filter {A} (f g : A -> bool) (l : list A) :
  (forall a, f a = true -> g a = true) -> find f (filter g l) = find f l.
Proof.
  intros H. induction l as [|a l IH]; cbn; [reflexivity|].
  destruct (g a) eqn:Eg; cbn.
  - now rewrite IH.
  - destruct (f a) eqn:Ef; [|exact IH].
    rewrite (H a Ef) in Eg. discriminate Eg.
Qed.

(** The join in memory against the customers fetched by id gives what
    the embedded [customers] resource gives. *)
Lemma join_agrees (db : Database) (l : list Invoice.t) (i : Invoice.t) :
  In i l ->
  latestInvoice
    (filter (fun c => existsb (String.eqb (Customer.id c)) (map Invoice.customer_id l))
            (db_customers db))
    {| RecentInvoice.amount := Invoice.amount i;
       RecentInvoice.id := Invoice.id i;
       RecentInvoice.customer_id := Invoice.customer_id i;
       RecentInvoice.date := Invoice.date i |}
  = flattened (with_customer db i).
Proof.
  intros Hi. unfold latestInvoice, flattened, with_customer, customer_of.
  cbn [RecentInvoice.amount RecentInvoice.id RecentInvoice.customer_id
       InvoicesTable.id InvoicesTable.amount InvoicesTable.customers].
  rewrite find_in_filter.
  - destruct (find _ (db_customers db)); reflexivity.
  - intros c Hc. apply String.eqb_eq in Hc. apply existsb_exists.
    exists (Invoice.customer_id i). split; [now apply in_map|].
    now apply String.eqb_eq.
Qed.

Lemma join_all (db : Database) (l : list Invoice.t) :
  let recent i :=
    {| RecentInvoice.amount := Invoice.amount i;
       RecentInvoice.id := Invoice.id i;
       RecentInvoice.customer_id := Invoice.customer_id i;
       RecentInvoice.date := Invoice.date i |} in
  map (latestInvoice
         (filter (fun c => existsb (String.eqb (Customer.id c))
                             (map RecentInvoice.customer_id (map recent l)))
                 (db_customers db)))
      (map recent l)
  = map flattened (map (with_customer db) l).
Proof.
  intros recent.
  replace (map RecentInvoice.customer_id (map recent l)) with (map Invoice.customer_id l)
    by (rewrite map_map; reflexivity).
  rewrite !map_map. apply map_ext_in. intros j Hj.
  apply (join_agrees db l j Hj).
Qed.

(** X9.  On a store, the latest invoices are the head of the invoice
    list: [fetchLatestInvoices] returns the first five rows of the
    unfiltered, latest-first list that [fetchFilteredInvoices] pages
    through, each with its amount formatted and its customer's fields
    beside its own, so at most five records and fewer only when the
    store has fewer invoices. *)
Theorem latest_are_first_five
    (or_filter : string -> Supabase.PostgrestError + (Invoice.t -> bool))
    (db : Database) :
  outcome (fetchLatestInvoices (store or_filter db))
    = Normal (map flattened (firstn 5 (unfiltered_fetch db)))
  /\ List.length (map flattened (firstn 5 (unfiltered_fetch db)))
     = Nat.min 5 (List.length (db_invoices db)).
Proof.
  split.
  - unfold unfiltered_fetch. rewrite firstn_map.
    set (sorted := sort_by _ (db_invoices db)).
    unfold fetchLatestInvoices, fetchLatestInvoices_try, await_rest.
    cbn [rest_invoices_recent store]. unfold store_invoices_recent, window, ordered.
    cbn [q_range q_limit q_order latestInvoicesQuery limit order select from date_before].
    rewrite String.eqb_refl. change (Z.to_nat 5) with 5%nat. fold sorted.
    destruct (firstn 5 sorted) as [|i l] eqn:E; [reflexivity|].
    cbn [map success bind await events outcome fst snd throw_if ret Supabase.error
         Supabase.data app].
    cbn [rest_customers store]. unfold store_customers.
    cbn [q_in customersQuery in_ select from].
    cbn [success bind await events outcome fst snd throw_if ret Supabase.error
         Supabase.data app try_catch].
    exact (f_equal Normal (join_all db (i :: l))).
  - rewrite length_map, length_firstn, unfiltered_fetch_length. reflexivity.
Qed.

(** ** Failures of the card summary *)

(** X10.  [fetchCardData] looks at the errors only after all three
    requests have settled, in the order invoices, customers, statuses.
    So the first error in that order is the one on the console, an
    error of the status request fails the summary although its rows
    are not used, and a rejection of a later request hides the error
    an earlier one resolved with: that error is written nowhere. *)
Theorem fetchCardData_first_failure (B : Backend)
    (r1 : Supabase.PostgrestResponse (list Invoice.t)) :
  rest_invoices_all B allInvoicesQuery = Fulfilled r1 ->
  (forall x, rest_customers B allCustomersQuery = Rejected x ->
     fetchCardData B =
       ([Issued (Rest allInvoicesQuery); Settled (Rest allInvoicesQuery);
         Issued (Rest allCustomersQuery); Settled (Rest allCustomersQuery);
         ConsoleError "Database Error:" (PThrown x)],
        Throw (JsError "Failed to fetch card data.")))
  /\ (forall r2 x,
     rest_customers B allCustomersQuery = Fulfilled r2 ->
     rest_invoices_status B invoiceStatusQuery = Rejected x ->
     fetchCardData B =
       ((cardRequests ++ [ConsoleError "Database Error:" (PThrown x)])%list,
        Throw (JsError "Failed to fetch card data.")))
  /\ (forall r2 r3,
     rest_customers B allCustomersQuery = Fulfilled r2 ->
     rest_invoices_status B invoiceStatusQuery = Fulfilled r3 ->
     forall cause,
       match Supabase.error r1, Supabase.error r2, Supabase.error r3 with
       | Some e, _, _ =>
         cause = JsError ("Error fetching invoices: " ++ Supabase.message e)
       | None, Some e, _ =>
         cause = JsError ("Error fetching customers: " ++ Supabase.message e)
       | None, None, Some e =>
         cause = JsError ("Error fetching invoice statuses: " ++ Supabase.message e)
       | None, None, None => False
       end ->
       fetchCardData B =
         ((cardRequests ++ [ConsoleError "Database Error:" (PThrown cause)])%list,
          Throw (JsError "Failed to fetch card data."))).
Proof.
  intros H1. unfold fetchCardData, fetchCardData_try, await_rest. rewrite H1.
  split; [|split].
  - intros x H2. rewrite H2. reflexivity.
  - intros r2 x H2 H3. rewrite H2, H3. reflexivity.
  - intros r2 r3 H2 H3 cause Hcause. rewrite H2, H3.
    destruct r1 as [d1 [e1|]], r2 as [d2 [e2|]], r3 as [d3 [e3|]];
      cbn in Hcause; subst; try reflexivity; contradiction.
Qed.

Lemma fetchCardData_first_failure_witness :
  rest_invoices_all (hidden_error "permission denied" (Rejection "ECONNRESET") ledger)
    allInvoicesQuery = failure "permission denied"
  /\ fetchCardData (hidden_error "permission denied" (Rejection "ECONNRESET") ledger) =
       ([Issued (Rest allInvoicesQuery); Settled (Rest allInvoicesQuery);
         Issued (Rest allCustomersQuery); Settled (Rest allCustomersQuery);
         ConsoleError "Database Error:" (PThrown (Rejection "ECONNRESET"))],
        Throw (JsError "Failed to fetch card data."))
  /\ fetchCardData (erroring "permission denied" ledger) =
       ((cardRequests ++
         [ConsoleError "Database Error:"
            (PThrown (JsError "Error fetching invoices: permission denied"))])%list,
        Throw (JsError "Failed to fetch card data.")).
Proof.
  split; [reflexivity|]. split.
  - exact (proj1 (fetchCardData_first_failure
                    (hidden_error "permission denied" (Rejection "ECONNRESET") ledger)
                    _ eq_refl)
             (Rejection "ECONNRESET") eq_refl).
  - exact (proj2 (proj2 (fetchCardData_first_failure
                           (erroring "permission denied" ledger) _ eq_refl))
             _ _ eq_refl eq_refl
             (JsError "Error fetching invoices: permission denied") eq_refl).
Defined.

(** X11.  The rows of the status request do not reach the result: two
    backends that answer the invoices and the customers requests alike,
    and the status request with the same error or lack of one, give the
    same [fetchCardData], whatever rows the status request delivers. *)
Theorem fetchCardData_ignores_status_rows (B B' : Backend)
    (r3 r3' : Supabase.PostgrestResponse (list InvoiceStatus.t)) :
  rest_invoices_all B allInvoicesQuery = rest_invoices_all B' allInvoicesQuery ->
  rest_customers B allCustomersQuery = rest_customers B' allCustomersQuery ->
  rest_invoices_status B invoiceStatusQuery = Fulfilled r3 ->
  rest_invoices_status B' invoiceStatusQuery = Fulfilled r3' ->
  Supabase.error r3 = Supabase.error r3' ->
  fetchCardData B = fetchCardData B'.
Proof.
  intros H1 H2 H3 H3' He.
  unfold fetchCardData, fetchCardData_try, await_rest.
  rewrite H1, H2, H3, H3'.
  destruct (rest_invoices_all B' allInvoicesQuery) as [[d1 e1] | x1]; [|reflexivity].
  destruct (rest_customers B' allCustomersQuery) as [[d2 e2] | x2]; [|reflexivity].
  destruct r3 as [d3 e3], r3' as [d3' e3']. cbn in He. subst e3'.
  destruct e1, e2, e3; reflexivity.
Qed.

Lemma fetchCardData_ignores_status_rows_witness :
  fetchCardData (store keep_all ledger) =
     fetchCardData
       {| rest_revenue := rest_revenue (store keep_all ledger);
          rest_invoices_recent := rest_invoices_recent (store keep_all ledger);
          rest_customers := rest_customers (store keep_all ledger);
          rest_invoices_all := rest_invoices_all (store keep_all ledger);
          rest_invoices_status := fun _ => success [];
          rest_invoices_table := rest_invoices_table (store keep_all ledger);
          sql_count := sql_count (store keep_all ledger);
          sql_invoice_by_id := sql_invoice_by_id (store keep_all ledger);
          sql_customers := sql_customers (store keep_all ledger);
          sql_customers_table := sql_customers_table (store keep_all ledger) |}.
Proof.
  exact (fetchCardData_ignores_status_rows (store keep_all ledger) _ _ _
           eq_refl eq_refl eq_refl eq_refl eq_refl).
Defined.

(** ** The count statement *)

(** X12.  [fetchInvoicesPages] reads the count off the first row of
    the result and nothing else: with a first row the page count is the
    ceiling of its count over 6, whatever rows follow; with no row at
    all the read of [rows[0].count] fails, and the call throws its
    generic [Error] with the [TypeError] on the console. *)
Theorem fetchInvoicesPages_first_row (B : Backend) (query : string) :
  (forall r0 rest,
     sql_count B (countParams query) = Fulfilled {| rows := r0 :: rest |} ->
     exists totalPages,
       fetchInvoicesPages B query =
         ([Issued (Sql {| statement := CountInvoices; params := countParams query |});
           Settled (Sql {| statement := CountInvoices; params := countParams query |})],
          Normal totalPages)
       /\ 6 * (totalPages - 1) < CountRow.count r0 <= 6 * totalPages)
  /\ (sql_count B (countParams query) = Fulfilled {| rows := [] |} ->
     fetchInvoicesPages B query =
       ([Issued (Sql {| statement := CountInvoices; params := countParams query |});
         Settled (Sql {| statement := CountInvoices; params := countParams query |});
         ConsoleError "Database Error:"
           (PThrown (JsTypeError "Cannot read properties of undefined (reading 'count')"))],
        Throw (JsError "Failed to fetch total number of invoices."))).
Proof.
  split.
  - intros r0 rest H.
    exists (Math_ceil (Number (CountRow.count r0) / Number ITEMS_PER_PAGE)).
    split; [|apply ceil_sixth].
    unfold fetchInvoicesPages, fetchInvoicesPages_try, await_sql. rewrite H. reflexivity.
  - intros H.
    unfold fetchInvoicesPages, fetchInvoicesPages_try, await_sql. rewrite H. reflexivity.
Qed.

Lemma fetchInvoicesPages_first_row_witness :
  (exists totalPages,
     outcome (fetchInvoicesPages (counting [13; 600] ledger) "ada") = Normal totalPages
     /\ 6 * (totalPages - 1) < 13 <= 6 * totalPages)
  /\ outcome (fetchInvoicesPages (counting [] ledger) "ada")
     = Throw (JsError "Failed to fetch total number of invoices.").
Proof.
  split.
  - destruct (proj1 (fetchInvoicesPages_first_row (counting [13; 600] ledger) "ada")
                (CountRow.mk 13) [CountRow.mk 600] eq_refl)
      as [totalPages [Hrun Hceil]].
    exists totalPages. split; [exact (f_equal snd Hrun) | exact Hceil].
  - exact (f_equal snd
             (proj2 (fetchInvoicesPages_first_row (counting [] ledger) "ada") eq_refl)).
Defined.

(** ** The customer lists *)

Lemma by_name_total (a b : Customer.t) : by_name a b = false -> by_name b a = true.
Proof.
  unfold by_name. intros H.
  destruct (String.leb_total (Customer.name a) (Customer.name b)) as [H' | H'];
    [congruence | exact H'].
Qed.

(** X13.  On a store, [fetchCustomers] returns one [{id, name}] per
    customer, no customer twice or left out, in ascending order of the
    names. *)
Theorem fetchCustomers_sorted_by_name
    (or_filter : string -> Supabase.PostgrestError + (Invoice.t -> bool))
    (db : Database) :
  exists out,
    fetchCustomers (store or_filter db) =
      ([Issued (Sql {| statement := AllCustomers; params := [] |});
        Settled (Sql {| statement := AllCustomers; params := [] |})],
       Normal out)
    /\ Permutation out
         (map (fun c => {| CustomerField.id := Customer.id c;
                           CustomerField.name := Customer.name c |})
              (db_customers db))
    /\ Sorted (fun a b => (CustomerField.name a <=? CustomerField.name b)%string = true) out.
Proof.
  eexists. split; [reflexivity|]. split.
  - apply Permutation_map, sort_by_perm.
  - apply Sorted_map with (R := fun a b => by_name a b = true); [auto|].
    apply sort_by_sorted, by_name_total.
Qed.

Lemma reduce_sum_as_sum {A} (f : A -> Z) (l : list A) :
  reduce_sum f l = sum_Z (map f l).
Proof.
  induction l as [|a l IH]; [reflexivity|].
  rewrite reduce_sum_cons, IH. reflexivity.
Qed.

Lemma total_where_as_sum (p : Invoice.t -> bool) (l : list Invoice.t) :
  total_where p l = sum_Z (map (fun i => if p i then Invoice.amount i else 0) l).
Proof. induction l as [|i l IH]; cbn; [reflexivity | now rewrite IH]. Qed.

Lemma customer_totals_summary (db : Database) (c : Customer.t) :
  formatTotals (customer_totals db c) = customerSummary db c.
Proof.
  unfold formatTotals, customer_totals, customerSummary, length_. cbn.
  fold (invoices_of db c).
  rewrite !reduce_sum_as_sum, !total_where_as_sum. reflexivity.
Qed.

Lemma store_customers_table_rows (db : Database) (query : string) :
  store_customers_table db (customersParams query) =
    Fulfilled
      {| rows := map (customer_totals db)
                   (sort_by by_name (filter (customer_matches query) (db_customers db))) |}.
Proof. reflexivity. Qed.

Lemma fetchFilteredCustomers_store
    (or_filter : string -> Supabase.PostgrestError + (Invoice.t -> bool))
    (db : Database) (query : string) :
  outcome (fetchFilteredCustomers (store or_filter db) query) =
    Normal (map (customerSummary db)
              (sort_by by_name (filter (customer_matches query) (db_customers db)))).
Proof.
  unfold fetchFilteredCustomers, fetchFilteredCustomers_try, await_sql.
  cbn [sql_customers_table store]. rewrite store_customers_table_rows.
  cbn. rewrite map_map. f_equal. apply map_ext. intros c. apply customer_totals_summary.
Qed.

Lemma customer_matches_empty_query (c : Customer.t) : customer_matches "" c = true.
Proof.
  unfold customer_matches. change ("%" ++ "" ++ "%") with "%%".
  now rewrite ilike_anything.
Qed.

(** X14.  On a store and for every query, the rows of
    [fetchFilteredCustomers] are in ascending order of the names and
    each is the summary of a customer of the store: the customer's own
    fields, the count of the customer's invoices with the value it was
    delivered with, and the sums of the pending and of the paid amounts
    of those invoices as currency strings.  For the empty query every
    customer has its row and no other row is there; a customer without
    invoices has the count 0 and both sums the formatting of 0. *)
Theorem fetchFilteredCustomers_summaries
    (or_filter : string -> Supabase.PostgrestError + (Invoice.t -> bool))
    (db : Database) (query : string) :
  exists out,
    outcome (fetchFilteredCustomers (store or_filter db) query) = Normal out
    /\ Sorted (fun a b => (CustomersTable.name a <=? CustomersTable.name b)%string = true) out
    /\ (forall row, In row out ->
        exists c,
          In c (db_customers db) /\
          row =
            {| CustomersTable.id := Customer.id c;
               CustomersTable.name := Customer.name c;
               CustomersTable.email := Customer.email c;
               CustomersTable.image_url := Customer.image_url c;
               CustomersTable.total_invoices := Z.of_nat (List.length (invoices_of db c));
               CustomersTable.total_pending :=
                 formatCurrency (total_where (has_status "pending") (invoices_of db c));
               CustomersTable.total_paid :=
                 formatCurrency (total_where (has_status "paid") (invoices_of db c)) |})
    /\ (query = "" ->
        Permutation out (map (customerSummary db) (db_customers db)) /\
        forall c,
          In c (db_customers db) -> invoices_of db c = [] ->
          In {| CustomersTable.id := Customer.id c;
                CustomersTable.name := Customer.name c;
                CustomersTable.email := Customer.email c;
                CustomersTable.image_url := Customer.image_url c;
                CustomersTable.total_invoices := 0;
                CustomersTable.total_pending := formatCurrency 0;
                CustomersTable.total_paid := formatCurrency 0 |} out).
Proof.
  eexists. split; [apply fetchFilteredCustomers_store|].
  split; [|split].
  - apply Sorted_map with (R := fun a b => by_name a b = true); [auto|].
    apply sort_by_sorted, by_name_total.
  - intros row Hrow. apply in_map_iff in Hrow. destruct Hrow as [c [<- Hc]].
    exists c. split; [|reflexivity].
    apply (Permutation_in c (sort_by_perm by_name _)) in Hc.
    apply filter_In in Hc. exact (proj1 Hc).
  - intros ->.
    rewrite (filter_everything _ _ customer_matches_empty_query).
    split; [apply Permutation_map, sort_by_perm|].
    intros c Hin Hnone.
    apply in_map_iff. exists c. split.
    + unfold customerSummary. rewrite Hnone. reflexivity.
    + exact (Permutation_in c (Permutation_sym (sort_by_perm by_name _)) Hin).
Qed.

Lemma fetchFilteredCustomers_summaries_witness :
  exists out,
    outcome (fetchFilteredCustomers (store keep_all orphaned) "") = Normal out
    /\ In {| CustomersTable.id := "cus-1";
             CustomersTable.name := "Ada Lovelace";
             CustomersTable.email := "ada@example.com";
             CustomersTable.image_url := "/customers/ada.png";
             CustomersTable.total_invoices := 0;
             CustomersTable.total_pending := formatCurrency 0;
             CustomersTable.total_paid := formatCurrency 0 |} out.
Proof.
  destruct (fetchFilteredCustomers_summaries keep_all orphaned "")
    as [out [Hrun [_ [_ Hall]]]].
  exists out. split; [exact Hrun|].
  exact (proj2 (Hall eq_refl)
           (Customer.mk "cus-1" "Ada Lovelace" "ada@example.com" "/customers/ada.png")
           (or_introl eq_refl) eq_refl).
Defined.

(** ** The customers table against the card summary *)

Lemma sum_Z_perm (l1 l2 : list Z) : Permutation l1 l2 -> sum_Z l1 = sum_Z l2.
Proof. unfold sum_Z. induction 1; cbn; lia. Qed.

Lemma sum_Z_map_add {A} (f g : A -> Z) (l : list A) :
  sum_Z (map (fun a => f a + g a) l) = sum_Z (map f l) + sum_Z (map g l).
Proof. unfold sum_Z. induction l as [|a l IH]; cbn; [reflexivity | rewrite IH; lia]. Qed.

Lemma sum_Z_indicator {A} (f : A -> bool) (x : Z) (l : list A) :
  sum_Z (map (fun a => if f a then x else 0) l) = x * Z.of_nat (List.length (filter f l)).
Proof.
  induction l as [|a l IH]; cbn [map sum_Z fold_right filter]; [cbn; lia|].
  fold (sum_Z (map (fun a => if f a then x else 0) l)). rewrite IH.
  destruct (f a); cbn [List.length]; lia.
Qed.

(** Summing a weight over the invoices of each customer, customer by
    customer, counts every invoice once when every invoice has one
    customer. *)
Lemma per_customer_sum (db : Database) (w : Invoice.t -> Z) (l : list Invoice.t) :
  (forall i, In i l -> List.length (customers_of db i) = 1%nat) ->
  sum_Z (map (fun c =>
                sum_Z (map w (filter (fun i => (Customer.id c =? Invoice.customer_id i)%string) l)))
             (db_customers db))
  = sum_Z (map w l).
Proof.
  induction l as [|i l IH]; intros H.
  - cbn. induction (db_customers db) as [|c cs IHc]; cbn; [reflexivity | exact IHc].
  - rewrite (map_ext
               (fun c => sum_Z (map w (filter (fun i0 => (Customer.id c =? Invoice.customer_id i0)%string) (i :: l))))
               (fun c => (if (Invoice.customer_id i =? Customer.id c)%string then w i else 0) +
                         sum_Z (map w (filter (fun i0 => (Customer.id c =? Invoice.customer_id i0)%string) l)))).
    + rewrite sum_Z_map_add, IH by (intros j Hj; apply H; now right).
      rewrite sum_Z_indicator. fold (customers_of db i).
      rewrite (H i (or_introl eq_refl)). unfold sum_Z. cbn [map fold_right]. lia.
    + intros c. cbn [filter]. rewrite (String.eqb_sym (Invoice.customer_id i)).
      destruct (Customer.id c =? Invoice.customer_id i)%string; reflexivity.
Qed.

Lemma all_customers_rows (db : Database) (f : CustomersTable.row -> Z) :
  sum_Z (map f (sql_rows (store_customers_table db (customersParams ""))))
  = sum_Z (map (fun c => f (customer_totals db c)) (db_customers db)).
Proof.
  rewrite store_customers_table_rows. cbn [sql_rows rows].
  rewrite (filter_everything _ _ customer_matches_empty_query), map_map.
  apply sum_Z_perm, Permutation_map, sort_by_perm.
Qed.

(** X15.  The customers table and the cards agree.  On a store in which
    every invoice has its one customer, the paid sums of the rows that
    [fetchFilteredCustomers] formats for the empty query add up to the
    paid total that [fetchCardData] formats, the pending sums to its
    pending total, and the invoice counts to its number of invoices. *)
Theorem customers_table_adds_up_to_cards
    (or_filter : string -> Supabase.PostgrestError + (Invoice.t -> bool))
    (db : Database) :
  referential db ->
  exists card,
    outcome (fetchCardData (store or_filter db)) = Normal card
    /\ CardData.totalPaidInvoices card =
       formatCurrency
         (sum_Z (map CustomersTable.row_total_paid
                   (sql_rows (sql_customers_table (store or_filter db) (customersParams "")))))
    /\ CardData.totalPendingInvoices card =
       formatCurrency
         (sum_Z (map CustomersTable.row_total_pending
                   (sql_rows (sql_customers_table (store or_filter db) (customersParams "")))))
    /\ CardData.numberOfInvoices card =
       sum_Z (map CustomersTable.row_total_invoices
                (sql_rows (sql_customers_table (store or_filter db) (customersParams "")))).
Proof.
  intros Href.
  eexists. split.
  { apply (f_equal snd
             (fetchCardData_resolved (store or_filter db) _ _ _ eq_refl eq_refl eq_refl)). }
  cbn [CardData.totalPaidInvoices CardData.totalPendingInvoices CardData.numberOfInvoices
       present sql_customers_table store].
  rewrite !all_customers_rows.
  unfold customer_totals.
  cbn [CustomersTable.row_total_paid CustomersTable.row_total_pending
       CustomersTable.row_total_invoices].
  split; [|split].
  - f_equal. rewrite total_where_as_sum.
    rewrite <- (per_customer_sum db _ (db_invoices db) Href).
    f_equal. apply map_ext. intros c. apply eq_sym, reduce_sum_as_sum.
  - f_equal. rewrite total_where_as_sum.
    rewrite <- (per_customer_sum db _ (db_invoices db) Href).
    f_equal. apply map_ext. intros c. apply eq_sym, reduce_sum_as_sum.
  - unfold length_.
    assert (Hlen : forall l : list Invoice.t,
               Z.of_nat (List.length l) = sum_Z (map (fun _ => 1) l)).
    { induction l as [|i l IH]; [reflexivity|].
      cbn [List.length map sum_Z fold_right]. fold (sum_Z (map (fun _ => 1) l)). lia. }
    rewrite Hlen, <- (per_customer_sum db _ (db_invoices db) Href).
    f_equal. apply map_ext. intros c. apply eq_sym, Hlen.
Qed.

Lemma customers_table_adds_up_to_cards_witness :
  referential ledger
  /\ exists card,
       outcome (fetchCardData (store keep_all ledger)) = Normal card
       /\ CardData.totalPaidInvoices card =
          formatCurrency
            (sum_Z (map CustomersTable.row_total_paid
                      (sql_rows (sql_customers_table (store keep_all ledger)
                                   (customersParams "")))))
       /\ CardData.totalPendingInvoices card =
          formatCurrency
            (sum_Z (map CustomersTable.row_total_pending
                      (sql_rows (sql_customers_table (store keep_all ledger)
                                   (customersParams "")))))
       /\ CardData.numberOfInvoices card =
          sum_Z (map CustomersTable.row_total_invoices
                   (sql_rows (sql_customers_table (store keep_all ledger)
                                (customersParams "")))).
Proof.
  assert (H : referential ledger).
  { intros i [<- | [<- | []]]; reflexivity. }
  split; [exact H|].
  exact (customers_table_adds_up_to_cards keep_all ledger H).
Defined.

(** ** Pages under a filter *)

Lemma firstn_incl {A} (n : nat) (l : list A) (x : A) : In x (firstn n l) -> In x l.
Proof.
  revert l. induction n as [|n IH]; intros [|a l]; cbn; try tauto.
  intros [-> | H]; [now left | right; now apply IH].
Qed.

Lemma skipn_incl {A} (n : nat) (l : list A) (x : A) : In x (skipn n l) -> In x l.
Proof.
  revert l. induction n as [|n IH]; intros [|a l]; cbn; try tauto.
  intros H. right. now apply IH.
Qed.

Lemma Sorted_skipn {A} (R : A -> A -> Prop) (n : nat) (l : list A) :
  Sorted R l -> Sorted R (skipn n l).
Proof.
  revert l. induction n as [|n IH]; intros l H; [exact H|].
  destruct l as [|a l]; [constructor|]. cbn. apply IH. now inversion H.
Qed.

Lemma Sorted_firstn {A} (R : A -> A -> Prop) (n : nat) (l : list A) :
  Sorted R l -> Sorted R (firstn n l).
Proof.
  revert n. induction l as [|a l IH]; intros n H.
  - rewrite firstn_nil. constructor.
  - destruct n as [|n]; [constructor|]. cbn.
    inversion H as [|? ? Hs Hhd]; subst.
    constructor; [now apply IH|].
    destruct l as [|b l]; [rewrite firstn_nil; constructor|].
    destruct n as [|n]; cbn; constructor. now inversion Hhd.
Qed.

(** The rows the store delivers for a page from 1 on, with or without
    a filter. *)
Lemma store_invoices_table_page
    (or_filter : string -> Supabase.PostgrestError + (Invoice.t -> bool))
    (db : Database) (query : string) (page : Z) :
  1 <= page ->
  let slice l :=
    map (with_customer db)
      (firstn 6 (skipn (Z.to_nat ((page - 1) * 6))
         (sort_by (fun a b => (Invoice.date b <=? Invoice.date a)%string) l))) in
  store_invoices_table or_filter db (invoicesQuery query page) =
    match filterCondition query with
    | None => success (slice (db_invoices db))
    | Some filters =>
      match or_filter filters with
      | inl e => Fulfilled {| Supabase.data := None; Supabase.error := Some e |}
      | inr keep => success (slice (filter keep (db_invoices db)))
      end
    end.
Proof.
  intros Hpage slice. subst slice.
  unfold store_invoices_table, invoicesQuery, offset_ok, ITEMS_PER_PAGE.
  destruct (filterCondition query) as [filters|];
    cbn [q_range q_or or_ range order select from negb];
    (replace (0 <=? (page - 1) * 6) with true by (symmetry; apply Z.leb_le; lia));
    cbn [negb]; unfold window, ordered;
    cbn [q_range q_limit q_order or_ range order select from date_before];
    rewrite String.eqb_refl;
    (replace ((page - 1) * 6 + 6 - 1 - (page - 1) * 6 + 1) with 6 by lia);
    reflexivity.
Qed.

Lemma slice_of_the_list (db : Database) (keep : Invoice.t -> bool) (offset : nat) :
  let rows :=
    map (with_customer db)
      (firstn 6 (skipn offset
         (sort_by (fun a b => (Invoice.date b <=? Invoice.date a)%string)
            (filter keep (db_invoices db))))) in
  (List.length rows <= 6)%nat
  /\ latest_first rows
  /\ (forall r, In r rows -> In r (unfiltered_fetch db)).
Proof.
  intros rows. subst rows. split; [|split].
  - rewrite length_map, length_firstn. lia.
  - unfold latest_first.
    apply Sorted_map with
      (R := fun a b => (Invoice.date b <=? Invoice.date a)%string = true); [auto|].
    apply Sorted_firstn, Sorted_skipn.
    apply (sort_by_sorted (fun a b => (Invoice.date b <=? Invoice.date a)%string)).
    intros a b H.
    destruct (String.leb_total (Invoice.date a) (Invoice.date b)) as [H' | H'];
      [exact H' | congruence].
  - intros r Hr. apply in_map_iff in Hr. destruct Hr as [i [<- Hi]].
    apply in_map. apply firstn_incl, skipn_incl in Hi.
    apply (Permutation_in i (sort_by_perm _ _)) in Hi.
    apply filter_In in Hi. destruct Hi as [Hi _].
    now apply (Permutation_in i (Permutation_sym (sort_by_perm _ _))).
Qed.

(** X16.  Whatever the query and however the server reads the filter,
    a page from 1 on that [fetchFilteredInvoices] returns from a store
    is never [null], never has more than 6 rows, has them latest
    first, and has only rows of the unfiltered list.  The call fails
    only when there is a filter and the server refuses it. *)
Theorem pages_come_from_the_list
    (or_filter : string -> Supabase.PostgrestError + (Invoice.t -> bool))
    (db : Database) (query : string) (page : Z) :
  1 <= page ->
  match outcome (fetchFilteredInvoices (store or_filter db) query page) with
  | Normal (Some rows) =>
    (List.length rows <= 6)%nat
    /\ latest_first rows
    /\ (forall r, In r rows -> In r (unfiltered_fetch db))
  | Normal None => False
  | Throw e =>
    e = JsError "Failed to fetch invoices."
    /\ exists filters err, filterCondition query = Some filters /\ or_filter filters = inl err
  end.
Proof.
  intros Hpage.
  unfold fetchFilteredInvoices, fetchFilteredInvoices_try, await_rest.
  cbn [rest_invoices_table store].
  rewrite (store_invoices_table_page or_filter db query page Hpage).
  destruct (filterCondition query) as [filters|] eqn:Ef.
  - destruct (or_filter filters) as [err | keep] eqn:Eo; cbn.
    + split; [reflexivity|]. now exists filters, err.
    + apply (slice_of_the_list db keep).
  - cbn. rewrite <- (filter_everything (fun _ => true) (db_invoices db)) by reflexivity.
    apply (slice_of_the_list db (fun _ => true)).
Qed.

Lemma pages_come_from_the_list_witness :
  1 <= 1
  /\ exists rows,
       outcome (fetchFilteredInvoices (store keep_all ledger) "ada" 1) = Normal (Some rows)
       /\ (List.length rows <= 6)%nat
       /\ latest_first rows
       /\ (forall r, In r rows -> In r (unfiltered_fetch ledger)).
Proof.
  split; [lia|].
  eexists. split; [reflexivity|].
  exact (pages_come_from_the_list keep_all ledger "ada" 1 ltac:(lia)).
Defined.
